(** * The page-table hierarchy API of the amd64 Xen pmap (sys/amd64/xen/mmu_map.c)

    A shallow embedding of [mmu_map.c]: the index helpers, the table
    getters, the walk context and its life cycle, and the three
    hierarchy operations [mmu_map_inspect_va], [mmu_map_hold_va] and
    [mmu_map_release_va], followed by the properties proved of them.

    Conventions of the embedding.
    - A [uintptr_t], [vm_paddr_t] or table entry is a [Z]; pointer
      arithmetic wraps modulo 2^64 ([wrap64]).
    - Memory is a finite map from the machine address of a 64-bit word to
      its value (an unwritten word reads 0).  A table is reached through
      its kernel virtual address [p]; the word behind [p] is the one at
      machine address [xpmap_ptom (vtop p)], the composition the source
      itself uses to name an entry for the hypervisor.
    - Reading through a null pointer is a [Fault]; a failed [KASSERT] is a
      [Panic].
    - Every read of table memory, every allocation and free by the
      backend and every call to the hypervisor is appended to a trace, in
      program order. *)

From stdpp Require Import base option list gmap.
From Stdlib Require Import ZArith Lia Bool.

Local Open Scope Z_scope.

(** ** Architecture constants

    The macros below come from the amd64 headers ([machine/param.h],
    [machine/pmap.h]); [mmu_map.c] only uses them. *)

(** Modelled from the spec: the macros [PAGE_SHIFT], [PDRSHIFT], [PDPSHIFT]
    and [PML4SHIFT] are not defined in [mmu_map.c]; the spec fixes 9 index
    bits per level above the 4 KiB leaf page. *)
Definition PAGE_SHIFT : Z := 12.
Definition PDRSHIFT : Z := 21.
Definition PDPSHIFT : Z := 30.
Definition PML4SHIFT : Z := 39.

Definition PAGE_SIZE : Z := Z.shiftl 1 PAGE_SHIFT.
Definition NBPDR : Z := Z.shiftl 1 PDRSHIFT.
Definition NBPDP : Z := Z.shiftl 1 PDPSHIFT.
Definition NBPML4 : Z := Z.shiftl 1 PML4SHIFT.

Definition PDRMASK : Z := NBPDR - 1.
Definition PDPMASK : Z := NBPDP - 1.
Definition PML4MASK : Z := NBPML4 - 1.

(** Modelled from the spec: the entry layout macros are not defined in
    [mmu_map.c]; bit 0 is the valid flag, bits 1 and 2 the writable and
    user flags, bits 12..51 the frame field. *)
Definition PG_V : Z := 1.
Definition PG_RW : Z := 2.
Definition PG_U : Z := 4.
Definition PG_FRAME : Z := 0x000ffffffffff000.

(** Number of entries of a table page: [PAGE_SIZE / sizeof(uint64_t)]. *)
Definition NPTEPG : Z := 512.

Definition wrap64 (x : Z) : Z := x mod 2 ^ 64.

(** [atop(x)]: the page number of an address. *)
Definition atop (x : Z) : Z := Z.shiftr x PAGE_SHIFT.

(** ** Index helpers *)

Definition SIGNMASK : Z := Z.shiftl 1 48 - 1.

Definition pml4t_index (va : Z) : Z :=
  let va := Z.land va SIGNMASK in
  Z.shiftr va PML4SHIFT.

Definition pdpt_index (va : Z) : Z :=
  Z.shiftr (Z.land va PML4MASK) PDPSHIFT.

Definition pdt_index (va : Z) : Z :=
  Z.shiftr (Z.land va PDPMASK) PDRSHIFT.

(** ** Outcomes, events and the world *)

(** Outcome of a run: a value, a failed [KASSERT], or a dereference of a
    null pointer (data or function). *)
Inductive result (A : Type) : Type :=
  | Ok (a : A)
  | Panic
  | Fault.
Arguments Ok {A} a.
Arguments Panic {A}.
Arguments Fault {A}.

(** What the code does to the outside, in program order. *)
Inductive event : Type :=
  | EvRead (va : Z) (e : Z)    (* the table entry at virtual address va read as e *)
  | EvScan (p : Z)             (* memcchr over the page starting at p *)
  | EvAlloc (p : Z)            (* backend alloc() returned p *)
  | EvFree (p : Z)             (* backend free(p) *)
  | EvQueue (ma : Z) (e : Z)   (* xen_queue_pt_update(ma, e) *)
  | EvFlush.                   (* xen_flush_queue() *)

Global Instance event_eq_dec : EqDecision event.
Proof. solve_decision. Defined.

Definition is_read (e : event) : bool :=
  match e with EvRead _ _ => true | _ => false end.

Definition allocs_of (t : list event) : list Z :=
  omap (fun e => match e with EvAlloc p => Some p | _ => None end) t.
Definition frees_of (t : list event) : list Z :=
  omap (fun e => match e with EvFree p => Some p | _ => None end) t.

(** A function pointer is not NULL. *)
Definition non_null {A} (o : option A) : bool :=
  match o with Some _ => true | None => false end.

(** [struct pmap], reduced to the one field the file reads. *)
Record pmap : Type := { pm_pml4 : Z }.

Section MmuMap.

(** State of the backend allocator (free lists, counters, ...). *)
Context {B : Type}.

(** Machine/physical frame translation of the Xen port ([xpmap_ptom],
    [xpmap_mtop]), the bound [VM_MAX_KERNEL_ADDRESS], and the translation
    the MMU applies to a kernel virtual address ([vtomach]): all defined
    outside [mmu_map.c]. *)
Variable xpmap_ptom : Z -> Z.
Variable xpmap_mtop : Z -> Z.
Variable VM_MAX_KERNEL_ADDRESS : Z.
Variable vtomach : Z -> Z.

(** [struct mmu_map_mbackend]: four function pointers, [None] for NULL. *)
Record mmu_map_mbackend : Type := {
  alloc : option (B -> Z * B);
  free : option (Z -> B -> B);
  ptov : option (Z -> Z);
  vtop : option (Z -> Z)
}.

Definition SANE : Z := 0xcafebabe.

Record mmu_map_index : Type := {
  pml4t : Z;  (* Page Map Level 4 Table *)
  pdpt : Z;   (* Page Directory Pointer Table *)
  pdt : Z;    (* Page Directory Table *)
  pt : Z;     (* Page Table *)
  ptmb : mmu_map_mbackend;
  sanity : Z
}.

Definition set_pml4t (v : Z) (i : mmu_map_index) : mmu_map_index :=
  {| pml4t := v; pdpt := pdpt i; pdt := pdt i; pt := pt i;
     ptmb := ptmb i; sanity := sanity i |}.
Definition set_pdpt (v : Z) (i : mmu_map_index) : mmu_map_index :=
  {| pml4t := pml4t i; pdpt := v; pdt := pdt i; pt := pt i;
     ptmb := ptmb i; sanity := sanity i |}.
Definition set_pdt (v : Z) (i : mmu_map_index) : mmu_map_index :=
  {| pml4t := pml4t i; pdpt := pdpt i; pdt := v; pt := pt i;
     ptmb := ptmb i; sanity := sanity i |}.
Definition set_pt (v : Z) (i : mmu_map_index) : mmu_map_index :=
  {| pml4t := pml4t i; pdpt := pdpt i; pdt := pdt i; pt := v;
     ptmb := ptmb i; sanity := sanity i |}.
Definition set_ptmb (mb : mmu_map_mbackend) (i : mmu_map_index) : mmu_map_index :=
  {| pml4t := pml4t i; pdpt := pdpt i; pdt := pdt i; pt := pt i;
     ptmb := mb; sanity := sanity i |}.
Definition set_sanity (v : Z) (i : mmu_map_index) : mmu_map_index :=
  {| pml4t := pml4t i; pdpt := pdpt i; pdt := pdt i; pt := pt i;
     ptmb := ptmb i; sanity := v |}.

(** Everything outside the context that a call can read or change. *)
Record world : Type := {
  mem : gmap Z Z;            (* machine memory, one 64-bit word per key *)
  queue : list (Z * Z);      (* pending hypervisor updates, oldest first *)
  backend : B;               (* allocator state *)
  trace : list event         (* events so far, oldest first *)
}.

Definition log (e : event) (w : world) : world :=
  {| mem := mem w; queue := queue w; backend := backend w;
     trace := trace w ++ [e] |}.

(** The word stored behind kernel virtual address [a]. *)
Definition peek (m : gmap Z Z) (a : Z) : Z := default 0 (m !! vtomach a).

(** ** A state and error monad for the stateful API

    A computation runs on the context the caller's [addr] points to and
    on the world. *)
Definition M (A : Type) : Type :=
  mmu_map_index -> world -> result (A * mmu_map_index * world).

Definition ret {A} (a : A) : M A := fun i w => Ok (a, i, w).

Definition bind {A C} (c : M A) (k : A -> M C) : M C :=
  fun i w =>
    match c i w with
    | Ok (a, i', w') => k a i' w'
    | Panic => Panic
    | Fault => Fault
    end.

Definition KASSERT (b : bool) : M unit :=
  fun i w => if b then Ok (tt, i, w) else Panic.

Definition get {A} (f : mmu_map_index -> A) : M A := fun i w => Ok (f i, i, w).

Definition put (f : mmu_map_index -> mmu_map_index) : M unit :=
  fun i w => Ok (tt, f i, w).

Notation "x <-- c ;; k" := (bind c (fun x => k))
  (at level 100, c at next level, right associativity).
Notation "c ;;; k" := (bind c (fun _ => k))
  (at level 100, right associativity).

(** *** Memory and the table page scan *)

(** [p[idx]] for a table pointer [p]: the entry at [&p[idx]]. *)
Definition entry_addr (p idx : Z) : Z := wrap64 (p + 8 * idx).

Definition load (p idx : Z) : M Z :=
  fun i w =>
    if p =? 0 then Fault
    else
      let e := peek (mem w) (entry_addr p idx) in
      Ok (e, i, log (EvRead (entry_addr p idx) e) w).

(** Addresses of the 512 entries of the page at [p], in order. *)
Definition page_slots (p : Z) : list Z :=
  map (fun k => entry_addr p (Z.of_nat k)) (seq 0 (Z.to_nat NPTEPG)).

(** [memcchr(p, 0, PAGE_SIZE)]: the first location of the page that is
    not zero, [None] (NULL) when the whole page is zero. *)
Definition memcchr (p : Z) : M (option Z) :=
  fun i w =>
    if p =? 0 then Fault
    else Ok (find (fun a => negb (peek (mem w) a =? 0)) (page_slots p),
             i, log (EvScan p) w).

(** *** The hypervisor update queue *)

(** Modelled from the spec: [xen_queue_pt_update] is defined outside
    [mmu_map.c]; it enqueues one 64-bit write to the given machine
    address. *)
Definition xen_queue_pt_update (ma e : Z) : M unit :=
  fun i w =>
    Ok (tt, i,
        {| mem := mem w; queue := queue w ++ [(ma, e)]; backend := backend w;
           trace := trace w ++ [EvQueue ma e] |}).

Definition apply_updates (q : list (Z * Z)) (m : gmap Z Z) : gmap Z Z :=
  foldl (fun m u => <[u.1 := u.2]> m) m q.

(** Modelled from the spec: [xen_flush_queue] is defined outside
    [mmu_map.c]; it applies all queued writes in submission order. *)
Definition xen_flush_queue : M unit :=
  fun i w =>
    Ok (tt, i,
        {| mem := apply_updates (queue w) (mem w); queue := [];
           backend := backend w; trace := trace w ++ [EvFlush] |}).

(** *** Calls through the backend's function pointers *)

Definition call_alloc : M Z :=
  fun i w =>
    match alloc (ptmb i) with
    | None => Fault
    | Some f =>
        let '(p, b) := f (backend w) in
        Ok (p, i, {| mem := mem w; queue := queue w; backend := b;
                     trace := trace w ++ [EvAlloc p] |})
    end.

Definition call_free (f : Z -> B -> B) (p : Z) : M unit :=
  fun i w =>
    Ok (tt, i, {| mem := mem w; queue := queue w; backend := f p (backend w);
                  trace := trace w ++ [EvFree p] |}).

Definition call_ptov (x : Z) : M Z :=
  fun i w => match ptov (ptmb i) with None => Fault | Some f => Ok (f x, i, w) end.

Definition call_vtop (x : Z) : M Z :=
  fun i w => match vtop (ptmb i) with None => Fault | Some f => Ok (f x, i, w) end.

(** ** The table getters *)

Definition pmap_get_pml4t (pm : option pmap) : M Z :=
  match pm with
  | None => KASSERT false ;;; ret 0
  | Some pm =>
      let pm_pml4 := pm_pml4 pm in
      KASSERT (negb (pm_pml4 =? 0)) ;;;
      ret pm_pml4
  end.

(** Returns physical address *)
Definition pmap_get_pdpt (va pml4t : Z) : M Z :=
  KASSERT (va <=? VM_MAX_KERNEL_ADDRESS) ;;;
  KASSERT (negb (pml4t =? 0)) ;;;
  pml4e <-- load pml4t (pml4t_index va) ;;
  if Z.land pml4e PG_V =? 0 then ret 0
  else ret (xpmap_mtop (Z.land pml4e PG_FRAME)).

(** Returns physical address *)
Definition pmap_get_pdt (va pdpt : Z) : M Z :=
  KASSERT (va <=? VM_MAX_KERNEL_ADDRESS) ;;;
  KASSERT (negb (pdpt =? 0)) ;;;
  pdpe <-- load pdpt (pdpt_index va) ;;
  if Z.land pdpe PG_V =? 0 then ret 0
  else ret (xpmap_mtop (Z.land pdpe PG_FRAME)).

(** Returns physical address *)
Definition pmap_get_pt (va pdt : Z) : M Z :=
  KASSERT (va <=? VM_MAX_KERNEL_ADDRESS) ;;;
  KASSERT (negb (pdt =? 0)) ;;;
  pdte <-- load pdt (pdt_index va) ;;
  if Z.land pdte PG_V =? 0 then ret 0
  else ret (xpmap_mtop (Z.land pdte PG_FRAME)).

(** ** Life cycle of the walk context *)

(** [mmu_map_t_init(addr, mb)]: [addr] and [mb] are [None] for NULL,
    otherwise what they point to; the result is the new content of the
    caller's storage. *)
Definition mmu_map_t_init (addr : option mmu_map_index)
    (mb : option mmu_map_mbackend) : result mmu_map_index :=
  match addr, mb with
  | Some pti, Some mb =>
      if sanity pti =? SANE then Panic
      else if non_null (alloc mb) && non_null (ptov mb) && non_null (vtop mb)
      then Ok (set_sanity SANE (set_ptmb mb pti))
      else Panic
  | _, _ => Panic
  end.

Definition mmu_map_t_fini (addr : option mmu_map_index) : result mmu_map_index :=
  match addr with
  | None => Panic
  | Some pti =>
      if sanity pti =? SANE then Ok (set_sanity 0 pti) else Panic
  end.

Definition accessor (f : mmu_map_index -> Z) (addr : option mmu_map_index) : result Z :=
  match addr with
  | None => Panic
  | Some pti => if sanity pti =? SANE then Ok (f pti) else Panic
  end.

Definition mmu_map_pml4t := accessor pml4t.
Definition mmu_map_pdpt := accessor pdpt.
Definition mmu_map_pdt := accessor pdt.
Definition mmu_map_pt := accessor pt.

(** Entry of the three hierarchy operations: the NULL checks on [addr]
    and [pm], then the sanity cookie. *)
Definition enter {A} (pm : option pmap) (addr : option mmu_map_index)
    (body : M A) (w : world) : result (A * mmu_map_index * world) :=
  match addr, pm with
  | Some pti, Some _ =>
      (s <-- get sanity ;; KASSERT (s =? SANE) ;;; body) pti w
  | _, _ => Panic
  end.

(** ** inspect

    The local [vm_paddr_t pt] of the source is written [pa] here, [pt]
    being the field of the context. *)

Definition inspect_body (pm : option pmap) (va : Z) : M bool :=
  r <-- pmap_get_pml4t pm ;; put (set_pml4t r) ;;;
  t4 <-- get pml4t ;;
  pa <-- pmap_get_pdpt va t4 ;;
  if pa =? 0 then ret false
  else
    v <-- call_ptov pa ;; put (set_pdpt v) ;;;
    t3 <-- get pdpt ;;
    pa <-- pmap_get_pdt va t3 ;;
    if pa =? 0 then ret false
    else
      v <-- call_ptov pa ;; put (set_pdt v) ;;;
      t2 <-- get pdt ;;
      pa <-- pmap_get_pt va t2 ;;
      if pa =? 0 then ret false
      else
        v <-- call_ptov pa ;; put (set_pt v) ;;;
        ret true.

Definition mmu_map_inspect_va (pm : option pmap) (addr : option mmu_map_index)
    (va : Z) (w : world) : result (bool * mmu_map_index * world) :=
  enter pm addr (inspect_body pm va) w.

(** ** hold *)

(** The entry written for a freshly allocated table whose machine address
    is [ma]. *)
Definition new_entry (ma : Z) : Z :=
  Z.lor (Z.lor (Z.lor ma PG_RW) PG_V) PG_U.

(** The allocation branch shared by the three levels of hold: [tep] is
    the address of the parent entry, [tbl] the new table. *)
Definition link_table (tep tbl : Z) : M unit :=
  tep_p <-- call_vtop tep ;;
  let tep_ma := xpmap_ptom tep_p in
  tbl_p <-- call_vtop tbl ;;
  let te := new_entry (xpmap_ptom tbl_p) in
  xen_queue_pt_update tep_ma te ;;;
  xen_flush_queue.

Definition hold_body (pm : option pmap) (va : Z) : M bool :=
  let alloced := false in
  r <-- pmap_get_pml4t pm ;; put (set_pml4t r) ;;;
  t4 <-- get pml4t ;;
  pa <-- pmap_get_pdpt va t4 ;;
  alloced <--
    (if pa =? 0 then
       n <-- call_alloc ;; put (set_pdpt n) ;;;
       t4 <-- get pml4t ;; t3 <-- get pdpt ;;
       link_table (entry_addr t4 (pml4t_index va)) t3 ;;;
       ret true
     else
       v <-- call_ptov pa ;; put (set_pdpt v) ;;; ret alloced) ;;
  t3 <-- get pdpt ;;
  pa <-- pmap_get_pdt va t3 ;;
  alloced <--
    (if pa =? 0 then
       n <-- call_alloc ;; put (set_pdt n) ;;;
       t3 <-- get pdpt ;; t2 <-- get pdt ;;
       link_table (entry_addr t3 (pdpt_index va)) t2 ;;;
       ret true
     else
       v <-- call_ptov pa ;; put (set_pdt v) ;;; ret alloced) ;;
  t2 <-- get pdt ;;
  pa <-- pmap_get_pt va t2 ;;
  alloced <--
    (if pa =? 0 then
       n <-- call_alloc ;; put (set_pt n) ;;;
       t2 <-- get pdt ;; t1 <-- get pt ;;
       link_table (entry_addr t2 (pdt_index va)) t1 ;;;
       ret true
     else
       v <-- call_ptov pa ;; put (set_pt v) ;;; ret alloced) ;;
  ret alloced.

Definition mmu_map_hold_va (pm : option pmap) (addr : option mmu_map_index)
    (va : Z) (w : world) : result (bool * mmu_map_index * world) :=
  enter pm addr (hold_body pm va) w.

(** ** release *)

(** Zap the entry at [tep]: queue a zero for its machine address and
    flush. *)
Definition zap (tep : Z) : M unit :=
  tep_p <-- call_vtop tep ;;
  let tep_ma := xpmap_ptom tep_p in
  xen_queue_pt_update tep_ma 0 ;;;
  xen_flush_queue.

(** [if (pti->ptmb.free) pti->ptmb.free(tbl);] *)
Definition free_table (tbl : Z) : M unit :=
  fun i w =>
    match free (ptmb i) with
    | None => Ok (tt, i, w)
    | Some f => call_free f tbl i w
    end.

(** Each of the three blocks of the source returns [true] when control
    falls through to the statement after it and [false] when the block
    executed [return]. *)

(** [if (pti->pdt != NULL) { /* Zap pdte */ ... }] *)
Definition release_pt (va : Z) : M bool :=
  t2 <-- get pdt ;;
  if negb (t2 =? 0) then
    let pdtep := entry_addr t2 (pdt_index va) in
    t1 <-- get pt ;;
    go <--
      (if t1 =? 0 then
         e <-- load t2 (pdt_index va) ;; KASSERT (e =? 0) ;;; ret true
       else if atop t1 =? atop va then ret false
       else
         r <-- memcchr t1 ;;
         match r with
         | None => zap pdtep ;;; free_table t1 ;;; put (set_pt 0) ;;; ret true
         | Some _ => ret true
         end) ;;
    if go : bool then
      t3 <-- get pdpt ;; KASSERT (negb (t3 =? 0)) ;;; ret true
    else ret false
  else ret true.

(** [if (pti->pdpt != NULL) { /* Zap pdpte */ ... }]; the emptiness test of
    this block is [memcchr(pti->pt, 0, PAGE_SIZE)], as in the source. *)
Definition release_pdt (va : Z) : M bool :=
  t3 <-- get pdpt ;;
  if negb (t3 =? 0) then
    let pdptep := entry_addr t3 (pdpt_index va) in
    t2 <-- get pdt ;;
    (if t2 =? 0 then e <-- load t3 (pdpt_index va) ;; KASSERT (e =? 0)
     else ret tt) ;;;
    if atop t2 =? atop va then ret false
    else
      t1 <-- get pt ;;
      r <-- memcchr t1 ;;
      match r with
      | None => zap pdptep ;;; free_table t2 ;;; put (set_pdt 0)
      | Some _ => ret tt
      end ;;;
      t4 <-- get pml4t ;; KASSERT (negb (t4 =? 0)) ;;; ret true
  else ret true.

(** [if (pti->pml4t != NULL) { /* Zap pml4te */ ... }]; again the test is
    on [pti->pt]. *)
Definition release_pdpt (va : Z) : M unit :=
  t4 <-- get pml4t ;;
  if negb (t4 =? 0) then
    let pml4tep := entry_addr t4 (pml4t_index va) in
    t3 <-- get pdpt ;;
    (if t3 =? 0 then e <-- load t4 (pml4t_index va) ;; KASSERT (e =? 0)
     else ret tt) ;;;
    if atop t3 =? atop va then ret tt
    else
      t1 <-- get pt ;;
      r <-- memcchr t1 ;;
      match r with
      | None => zap pml4tep ;;; free_table t3 ;;; put (set_pdpt 0)
      | Some _ => ret tt
      end
  else ret tt.

Definition release_body (pm : option pmap) (va : Z) : M unit :=
  r <-- pmap_get_pml4t pm ;; put (set_pml4t r) ;;;
  t4 <-- get pml4t ;;
  if t4 =? 0 then ret tt
  else
    t1 <-- get pt ;; t2 <-- get pdt ;;
    (if negb (t1 =? 0) then KASSERT (negb (t2 =? 0)) else ret tt) ;;;
    go <-- release_pt va ;;
    if go : bool then
      go <-- release_pdt va ;;
      if go : bool then release_pdpt va else ret tt
    else ret tt.

Definition mmu_map_release_va (pm : option pmap) (addr : option mmu_map_index)
    (va : Z) (w : world) : result (unit * mmu_map_index * world) :=
  enter pm addr (release_body pm va) w.

End MmuMap.

Notation "x <-- c ;; k" := (bind c (fun x => k))
  (at level 100, c at next level, right associativity).
Notation "c ;;; k" := (bind c (fun _ => k))
  (at level 100, right associativity).

Arguments mmu_map_mbackend B : clear implicits.
Arguments mmu_map_index B : clear implicits.
Arguments world B : clear implicits.

(** ** A test bench

    The configuration of the end-to-end scenario: machine, physical and
    kernel virtual addresses coincide, the allocator hands out successive
    zeroed pages (memory never written reads 0), and [free] leaves the
    allocator alone (the trace records the call). *)
Module Bench.

Definition ident (x : Z) : Z := x.

Definition VM_MAX : Z := 2 ^ 64 - 1.

(** The allocator state is the number of the next free page; page [n]
    starts at address [4096 * n]. *)
Definition page_addr (n : positive) : Z := Z.pos (Pos.iter xO n 12).
Definition bump (n : positive) : Z * positive := (page_addr n, Pos.succ n).

Definition mb : mmu_map_mbackend positive :=
  {| alloc := Some bump; free := Some (fun _ b => b);
     ptov := Some ident; vtop := Some ident |}.

Definition null_mb : mmu_map_mbackend positive :=
  {| alloc := None; free := None; ptov := None; vtop := None |}.

(** Caller storage, zero filled. *)
Definition zeroed : mmu_map_index positive :=
  {| pml4t := 0; pdpt := 0; pdt := 0; pt := 0; ptmb := null_mb; sanity := 0 |}.

(** Caller storage with leftovers in the four pointer fields. *)
Definition stale : mmu_map_index positive :=
  {| pml4t := 0x7000; pdpt := 0x8000; pdt := 0x9000; pt := 0xa000;
     ptmb := null_mb; sanity := 0 |}.

Definition pm : pmap := {| pm_pml4 := 0x1000 |}.

Definition va : Z := 0x0000100020003000.

(** Empty memory, empty queue, first free page at 0x100000. *)
Definition w0 : world positive :=
  {| mem := ∅; queue := []; backend := 0x100%positive; trace := [] |}.

Definition init (s : mmu_map_index positive) : result (mmu_map_index positive) :=
  mmu_map_t_init (Some s) (Some mb).

Definition inspect := mmu_map_inspect_va (B:=positive) ident VM_MAX ident.
Definition hold := mmu_map_hold_va (B:=positive) ident ident VM_MAX ident.
Definition release := mmu_map_release_va (B:=positive) ident ident.

(** Context and world of an outcome ([ctx_of] and [world_of] fall back
    on the zeroed storage and the empty world when there is none). *)
Definition ctx_of {A} (r : result (A * mmu_map_index positive * world positive)) : mmu_map_index positive :=
  match r with Ok (_, i, _) => i | _ => zeroed end.
Definition world_of {A} (r : result (A * mmu_map_index positive * world positive)) : world positive :=
  match r with Ok (_, _, w) => w | _ => w0 end.

(** A hierarchy in which the three governing entries of [va] are valid,
    the last one carrying frame 0: [0x1000[32] -> 0x2000],
    [0x2000[0] -> 0x3000], [0x3000[256] = PG_V | PG_RW]. *)
Definition w_frame0 : world positive :=
  {| mem := <[0x3800 := 0x3]> (<[0x2000 := 0x3007]> (<[0x1100 := 0x2007]> ∅));
     queue := []; backend := 0x100%positive; trace := [] |}.

(** The context after a successful initialisation of [zeroed]. *)
Definition ctx0 : mmu_map_index positive :=
  {| pml4t := 0; pdpt := 0; pdt := 0; pt := 0; ptmb := mb; sanity := SANE |}.

(** The outcome of [hold] on the fresh context and the empty world. *)
Definition held : result (bool * mmu_map_index positive * world positive) :=
  hold (Some pm) (Some ctx0) va w0.

Definition release_pt := release_pt (B:=positive) ident ident.
Definition release_pdt := release_pdt (B:=positive) ident ident.

(** The leaf block of release run on the outcome of [held]. *)
Definition leaf_released : result (bool * mmu_map_index positive * world positive) :=
  release_pt va (ctx_of held) (world_of held).

(** A walk whose leaf table is absent: [0x1000[32] -> 0x2000],
    [0x2000[0] -> 0x3000], and the table at 0x3000 holds only zeros;
    [leafless] is the outcome of inspect on it, from the fresh context. *)
Definition w_leafless : world positive :=
  {| mem := <[0x2000 := 0x3007]> (<[0x1100 := 0x2007]> ∅);
     queue := []; backend := 0x100%positive; trace := [] |}.
Definition leafless : result (bool * mmu_map_index positive * world positive) :=
  inspect (Some pm) (Some ctx0) va w_leafless.

(** A self-mapped walk: the address [va_self] lies in the page of the
    table at 0x3000, which is the pdt of its own walk
    ([0x1000[0] -> 0x2000], [0x2000[0] -> 0x3000], [0x3000[0] -> 0x4000]);
    the leaf table at 0x4000 is empty. *)
Definition va_self : Z := 0x3008.
Definition ctx_self : mmu_map_index positive :=
  {| pml4t := 0x1000; pdpt := 0x2000; pdt := 0x3000; pt := 0x4000;
     ptmb := mb; sanity := SANE |}.
Definition w_self : world positive :=
  {| mem := <[0x3000 := 0x4007]> (<[0x2000 := 0x3007]> (<[0x1000 := 0x2007]> ∅));
     queue := []; backend := 0x100%positive; trace := [] |}.

(** The leaf block of release run on the self-mapped walk. *)
Definition leaf_self : result (bool * mmu_map_index positive * world positive) :=
  release_pt va_self ctx_self w_self.

(** A walk whose leaf table at 0x4000 still maps a neighbour of [va]:
    [0x1000[32] -> 0x2000], [0x2000[0] -> 0x3000], [0x3000[256] -> 0x4000],
    [0x4000[1] = 0x9007]. *)
Definition ctx_live : mmu_map_index positive :=
  {| pml4t := 0x1000; pdpt := 0x2000; pdt := 0x3000; pt := 0x4000;
     ptmb := mb; sanity := SANE |}.
Definition w_live : world positive :=
  {| mem := <[0x4008 := 0x9007]>
              (<[0x3800 := 0x4007]>
                 (<[0x2000 := 0x3007]> (<[0x1100 := 0x2007]> ∅)));
     queue := []; backend := 0x100%positive; trace := [] |}.

End Bench.

(** ** Vocabulary of the statements *)

(** The valid flag of an entry, as the getters test it. *)
Definition entry_valid (e : Z) : bool := negb (Z.land e PG_V =? 0).

(** The same world with other events recorded. *)
Definition with_trace {B} (t : list event) (w : world B) : world B :=
  {| mem := mem w; queue := queue w; backend := backend w; trace := t |}.

Section Vocabulary.

Context {B : Type}.
Variable xpmap_ptom : Z -> Z.
Variable xpmap_mtop : Z -> Z.
Variable vtomach : Z -> Z.

(** An entry resolves to a table: it is valid and its frame does not
    translate to physical address 0 (the two tests a getter and its
    caller make). *)
Definition resolves_b (e : Z) : bool :=
  entry_valid e && negb (xpmap_mtop (Z.land e PG_FRAME) =? 0).

(** The flags hold gives a new entry. *)
Definition link_flags : Z := Z.lor (Z.lor PG_RW PG_V) PG_U.

(** What one level of hold records: the read of the governing entry at
    [slot], which gave [e], and, when the level was allocated, the
    allocation of the table [t], the queued write of the parent entry and
    the flush. [vp] is the backend's vtop. *)
Definition level_events (vp : Z -> Z) (slot e : Z) (new : option Z) : list event :=
  EvRead slot e ::
  match new with
  | Some t =>
      [EvAlloc t;
       EvQueue (xpmap_ptom (vp slot)) (Z.lor (xpmap_ptom (vp t)) link_flags);
       EvFlush]
  | None => []
  end.

(** One level of hold as a function of the world: the table of the next
    level, whether it was allocated, and the world afterwards. [al], [pv]
    and [vp] are the backend's alloc, ptov and vtop. *)
Definition level_step (al : B -> Z * B) (pv vp : Z -> Z) (tbl idx : Z)
    (w : world B) : Z * bool * world B :=
  let slot := entry_addr tbl idx in
  let e := peek vtomach (mem w) slot in
  if resolves_b e then
    (pv (xpmap_mtop (Z.land e PG_FRAME)), false,
     with_trace (trace w ++ level_events vp slot e None) w)
  else
    let '(t, b) := al (backend w) in
    (t, true,
     {| mem := apply_updates
                 (queue w ++ [(xpmap_ptom (vp slot), new_entry (xpmap_ptom (vp t)))])
                 (mem w);
        queue := [];
        backend := b;
        trace := trace w ++ level_events vp slot e (Some t) |}).

(** The context carries the callbacks [al], [pv] and [vp]. *)
Definition has_callbacks (al : B -> Z * B) (pv vp : Z -> Z)
    (i : mmu_map_index B) : Prop :=
  alloc (ptmb i) = Some al /\ ptov (ptmb i) = Some pv /\ vtop (ptmb i) = Some vp.

(** The entry hold writes for the table [t] leads back to [t]: it
    resolves, and ptov of its translated frame is [t]. *)
Definition links_back (pv vp : Z -> Z) (t : Z) : bool :=
  let e := new_entry (xpmap_ptom (vp t)) in
  resolves_b e && (pv (xpmap_mtop (Z.land e PG_FRAME)) =? t).

(** In memory [m], the entry [idx] of the table [tbl] resolves to the
    table [t]. *)
Definition resolved_to (pv : Z -> Z) (m : gmap Z Z) (tbl idx t : Z) : Prop :=
  let e := peek vtomach m (entry_addr tbl idx) in
  resolves_b e = true /\ pv (xpmap_mtop (Z.land e PG_FRAME)) = t.

(** What the leaf block of release may record: the assertion read of
    the governing entry at [pdtep], the scan of the leaf table [ptbl], a
    queued zero, a flush, and the free of the leaf table. *)
Definition leaf_event (pdtep ptbl : Z) (e : event) : Prop :=
  match e with
  | EvRead a _ => a = pdtep
  | EvScan q => q = ptbl
  | EvFree q => q = ptbl
  | EvQueue _ v => v = 0
  | EvFlush => True
  | EvAlloc _ => False
  end.

(** An event that scans or frees no table other than [ptbl] and
    allocates nothing. *)
Definition leaf_only (ptbl : Z) (e : event) : Prop :=
  match e with
  | EvScan q | EvFree q => q = ptbl
  | EvAlloc _ => False
  | _ => True
  end.

(** What an upper block of release may record besides its return: the
    assertion read of a governing entry and the scan of the leaf table
    [ptbl], which is then not null. *)
Definition upper_event (ptbl : Z) (e : event) : Prop :=
  match e with
  | EvRead _ _ => True
  | EvScan q => q = ptbl /\ ptbl <> 0
  | _ => False
  end.

(** The page at [p] holds a non-zero word in memory [m]. *)
Definition page_live (m : gmap Z Z) (p : Z) : Prop :=
  find (fun a => negb (peek vtomach m a =? 0)) (page_slots p) <> None.

End Vocabulary.

(** * Properties *)

(** ** Index extraction *)

Lemma land_low_bits (x n : Z) : 0 <= n -> Z.land x (Z.shiftl 1 n - 1) = x mod 2 ^ n.
Proof.
  intros Hn. rewrite Z.shiftl_1_l, Z.sub_1_r, <- Z.ones_equiv.
  now apply Z.land_ones.
Qed.

Lemma field_range (x hi lo : Z) :
  0 <= lo <= hi -> 0 <= Z.shiftr (x mod 2 ^ hi) lo < 2 ^ (hi - lo).
Proof.
  intros H. rewrite Z.shiftr_div_pow2 by lia.
  assert (Hlo : 0 < 2 ^ lo) by (apply Z.pow_pos_nonneg; lia).
  assert (Hx : 0 <= x mod 2 ^ hi < 2 ^ hi)
    by (apply Z.mod_pos_bound, Z.pow_pos_nonneg; lia).
  split; [apply Z.div_pos; lia|].
  apply Z.div_lt_upper_bound; [lia|].
  rewrite <- Z.pow_add_r by lia. now replace (lo + (hi - lo)) with hi by lia.
Qed.

Lemma pml4t_index_range va : 0 <= pml4t_index va <= 511.
Proof.
  unfold pml4t_index, SIGNMASK, PML4SHIFT. rewrite land_low_bits by lia.
  pose proof (field_range va 48 39 ltac:(lia)) as H.
  change (2 ^ (48 - 39)) with 512 in H. lia.
Qed.

Lemma pdpt_index_range va : 0 <= pdpt_index va <= 511.
Proof.
  unfold pdpt_index, PML4MASK, NBPML4, PML4SHIFT, PDPSHIFT.
  rewrite land_low_bits by lia.
  pose proof (field_range va 39 30 ltac:(lia)) as H.
  change (2 ^ (39 - 30)) with 512 in H. lia.
Qed.

Lemma pdt_index_range va : 0 <= pdt_index va <= 511.
Proof.
  unfold pdt_index, PDPMASK, NBPDP, PDPSHIFT, PDRSHIFT.
  rewrite land_low_bits by lia.
  pose proof (field_range va 30 21 ltac:(lia)) as H.
  change (2 ^ (30 - 21)) with 512 in H. lia.
Qed.

Lemma pml4t_index_mod va : pml4t_index va = Z.shiftr (va mod 2 ^ 48) 39.
Proof. unfold pml4t_index, SIGNMASK, PML4SHIFT. now rewrite land_low_bits by lia. Qed.

(** C10. For every address, each of the three index helpers returns a
    value between 0 and 511, so the entry it selects lies inside a
    512-entry table page; the top-level index does not depend on bits 48
    and up of the address: it is the same after masking with the sign mask
    and after adding any multiple of 2^48. *)
Theorem index_helpers_within_table (va : Z) :
  (0 <= pml4t_index va <= 511) /\
  (0 <= pdpt_index va <= 511) /\
  (0 <= pdt_index va <= 511) /\
  pml4t_index (Z.land va SIGNMASK) = pml4t_index va /\
  (forall hi : Z, pml4t_index (va + hi * 2 ^ 48) = pml4t_index va).
Proof.
  split; [apply pml4t_index_range|].
  split; [apply pdpt_index_range|].
  split; [apply pdt_index_range|].
  split.
  - rewrite !pml4t_index_mod. unfold SIGNMASK. rewrite land_low_bits by lia.
    now rewrite Z.mod_mod by lia.
  - intros hi. rewrite !pml4t_index_mod. now rewrite Z.mod_add by lia.
Qed.

(** ** Context initialisation *)

Section Init.

Context {B : Type}.

Implicit Types (s : mmu_map_index B) (m : mmu_map_mbackend B).

(** Initialisation never faults: it succeeds or panics. *)
Lemma init_not_fault (addr : option (mmu_map_index B)) (mb : option (mmu_map_mbackend B)) :
  mmu_map_t_init addr mb <> Fault.
Proof.
  destruct addr as [s|], mb as [m|]; simpl; try discriminate.
  destruct (sanity s =? SANE); [discriminate|].
  destruct (non_null (alloc m) && non_null (ptov m) && non_null (vtop m));
    discriminate.
Qed.

Lemma non_null_false {A} (o : option A) : non_null o = false <-> o = None.
Proof. destruct o; simpl; split; congruence. Qed.

(** C8. Initialisation panics exactly when the storage pointer is null,
    the backend pointer is null, one of the callbacks alloc, ptov, vtop is
    missing, or the storage already carries the validity tag; whether
    free is supplied plays no part. *)
Theorem init_panics_iff (addr : option (mmu_map_index B))
    (mb : option (mmu_map_mbackend B)) :
  (mmu_map_t_init addr mb = Panic <->
    addr = None \/ mb = None \/
    (exists m, mb = Some m /\
       (alloc m = None \/ ptov m = None \/ vtop m = None)) \/
    (exists s, addr = Some s /\ sanity s = SANE)) /\
  (forall s m,
     mmu_map_t_init (Some s) (Some m) = Panic <->
     mmu_map_t_init (Some s)
       (Some {| alloc := alloc m; free := None; ptov := ptov m; vtop := vtop m |})
     = Panic).
Proof.
  split.
  - destruct addr as [s|], mb as [m|]; simpl;
      try (split; [intros _; auto | reflexivity]).
    destruct (sanity s =? SANE) eqn:Es.
    + apply Z.eqb_eq in Es. split; [|reflexivity].
      intros _. right; right; right. eauto.
    + apply Z.eqb_neq in Es.
      destruct (non_null (alloc m)) eqn:Ea, (non_null (ptov m)) eqn:Ep,
        (non_null (vtop m)) eqn:Ev; simpl;
        try (split; [intros _|reflexivity]; right; right; left; exists m;
             split; [reflexivity|];
             rewrite <- !non_null_false; tauto).
      split; [discriminate|].
      intros [H|[H|[(m' & Hm & H)|(s' & Hs & H)]]]; try discriminate.
      * injection Hm as <-. rewrite <- !non_null_false in H.
        destruct H as [H|[H|H]]; congruence.
      * injection Hs as <-. contradiction.
  - intros s m. simpl. destruct (sanity s =? SANE); [tauto|].
    destruct (non_null (alloc m) && non_null (ptov m) && non_null (vtop m));
      split; congruence.
Qed.

(** C3, as the code has it. A successful initialisation sets the tag and
    copies the backend contract; the four table references keep the
    values the storage held, so they are absent exactly where the storage
    was zero. *)
Theorem init_sets_tag_and_contract s m s' :
  mmu_map_t_init (Some s) (Some m) = Ok s' ->
  sanity s' = SANE /\ ptmb s' = m /\
  pml4t s' = pml4t s /\ pdpt s' = pdpt s /\ pdt s' = pdt s /\ pt s' = pt s.
Proof.
  simpl. destruct (sanity s =? SANE); [discriminate|].
  destruct (non_null (alloc m) && non_null (ptov m) && non_null (vtop m));
    [|discriminate].
  intros [= <-]. simpl. repeat split; reflexivity.
Qed.

End Init.

(** The amended C3 at zero-filled storage: the references start absent. *)
Lemma init_sets_tag_and_contract_witness :
  mmu_map_t_init (Some Bench.zeroed) (Some Bench.mb) = Ok Bench.ctx0 /\
  (sanity Bench.ctx0 = SANE /\ ptmb Bench.ctx0 = Bench.mb /\
   pml4t Bench.ctx0 = 0 /\ pdpt Bench.ctx0 = 0 /\
   pdt Bench.ctx0 = 0 /\ pt Bench.ctx0 = 0).
Proof.
  split; [reflexivity|].
  apply (init_sets_tag_and_contract Bench.zeroed Bench.mb Bench.ctx0).
  reflexivity.
Defined.

(** C3 as stated fails on storage that held other values: the
    initialisation succeeds and the four references are not null. *)
Lemma init_leaves_stale_references :
  exists s',
    mmu_map_t_init (Some Bench.stale) (Some Bench.mb) = Ok s' /\
    sanity s' = SANE /\ ptmb s' = Bench.mb /\
    ~ (pml4t s' = 0 /\ pdpt s' = 0 /\ pdt s' = 0 /\ pt s' = 0).
Proof.
  eexists. split; [reflexivity|]. simpl.
  split; [reflexivity|]. split; [reflexivity|].
  intros (H & _). discriminate H.
Qed.

(** ** inspect *)

Ltac munfold :=
  unfold zap, free_table, link_table in *;
  unfold enter, bind, ret, get, put, KASSERT, load, memcchr,
    xen_queue_pt_update, xen_flush_queue, call_alloc, call_free, call_ptov,
    call_vtop, log, with_trace in *.

#[local] Arguments peek : simpl never.
#[local] Arguments entry_addr : simpl never.
#[local] Arguments apply_updates : simpl never.
#[local] Arguments Z.leb : simpl never.
#[local] Arguments Z.eqb : simpl never.
#[local] Arguments Z.land : simpl never.
#[local] Arguments Z.lor : simpl never.
#[local] Arguments Z.shiftr : simpl never.

Section Inspect.

Context {B : Type}.
Variable xpmap_mtop : Z -> Z.
Variable VM_MAX_KERNEL_ADDRESS : Z.
Variable vtomach : Z -> Z.

Local Abbreviation inspect := (mmu_map_inspect_va xpmap_mtop VM_MAX_KERNEL_ADDRESS vtomach).
Local Abbreviation rd := (peek vtomach).

(** An entry resolves when it is valid and its frame does not translate
    to physical address 0. *)
Local Abbreviation resolves e :=
  (entry_valid e = true /\ xpmap_mtop (Z.land e PG_FRAME) <> 0).

Lemma resolves_dec (e : Z) :
  (Z.land e PG_V =? 0) = false /\ (xpmap_mtop (Z.land e PG_FRAME) =? 0) = false
  <-> resolves e.
Proof.
  unfold entry_valid. rewrite negb_true_iff.
  split; intros [H1 H2]; (split; [exact H1|]); now apply Z.eqb_neq.
Qed.

(** C4, as the code has it. On an initialised context, with the address
    within [VM_MAX_KERNEL_ADDRESS], a non-null root and a [ptov] that maps
    no non-zero physical address to the null pointer, inspect returns. It
    leaves memory, the update queue and the allocator untouched, and
    records nothing but reads of table entries (no allocation, no free, no
    queued update, no flush).  It returns true exactly when at every level the
    governing entry is valid and its frame translates to a non-zero
    physical address; then the four references are the root and the
    [ptov] images of the three translated frames. *)
Theorem inspect_reads_only (p : pmap) (i : mmu_map_index B) (va : Z)
    (w : world B) (pv : Z -> Z) :
  sanity i = SANE ->
  ptov (ptmb i) = Some pv ->
  va <= VM_MAX_KERNEL_ADDRESS ->
  pm_pml4 p <> 0 ->
  (forall x, x <> 0 -> pv x <> 0) ->
  let e4 := rd (mem w) (entry_addr (pm_pml4 p) (pml4t_index va)) in
  let t3 := pv (xpmap_mtop (Z.land e4 PG_FRAME)) in
  let e3 := rd (mem w) (entry_addr t3 (pdpt_index va)) in
  let t2 := pv (xpmap_mtop (Z.land e3 PG_FRAME)) in
  let e2 := rd (mem w) (entry_addr t2 (pdt_index va)) in
  let t1 := pv (xpmap_mtop (Z.land e2 PG_FRAME)) in
  exists found i' reads,
    inspect (Some p) (Some i) va w
      = Ok (found, i', with_trace (trace w ++ reads) w) /\
    forallb is_read reads = true /\
    (found = true <-> resolves e4 /\ resolves e3 /\ resolves e2) /\
    (found = true ->
       pml4t i' = pm_pml4 p /\ pdpt i' = t3 /\ pdt i' = t2 /\ pt i' = t1) /\
    ptmb i' = ptmb i /\ sanity i' = SANE.
Proof.
  intros Hs Hpv Hva Hroot Hnz e4 t3 e3 t2 e2 t1.
  apply Z.leb_le in Hva. apply Z.eqb_neq in Hroot.
  unfold mmu_map_inspect_va, inspect_body, pmap_get_pml4t, pmap_get_pdpt,
    pmap_get_pdt, pmap_get_pt.
  munfold. rewrite !Hva, Hs, Z.eqb_refl. cbn.
  repeat (rewrite Hroot; cbn). fold e4.
  destruct (Z.land e4 PG_V =? 0) eqn:V4; cbn.
  { eexists false, _, [_].
    split; [reflexivity|]. split; [reflexivity|].
    unfold entry_valid. rewrite V4. cbn. intuition congruence. }
  destruct (xpmap_mtop (Z.land e4 PG_FRAME) =? 0) eqn:F4; cbn.
  { eexists false, _, [_].
    split; [reflexivity|]. split; [reflexivity|].
    apply Z.eqb_eq in F4. intuition congruence. }
  rewrite Hpv. cbn. fold t3.
  assert (N3 : (t3 =? 0) = false).
  { apply Z.eqb_neq, Hnz. now apply Z.eqb_neq. }
  repeat (rewrite N3; cbn). fold e3.
  destruct (Z.land e3 PG_V =? 0) eqn:V3; cbn.
  { eexists false, _, [_; _].
    split; [rewrite <- app_assoc; reflexivity|]. split; [reflexivity|].
    unfold entry_valid at 2. rewrite V3. cbn. intuition congruence. }
  destruct (xpmap_mtop (Z.land e3 PG_FRAME) =? 0) eqn:F3; cbn.
  { eexists false, _, [_; _].
    split; [rewrite <- app_assoc; reflexivity|]. split; [reflexivity|].
    apply Z.eqb_eq in F3. intuition congruence. }
  rewrite Hpv. cbn. fold t2.
  assert (N2 : (t2 =? 0) = false).
  { apply Z.eqb_neq, Hnz. now apply Z.eqb_neq. }
  repeat (rewrite N2; cbn). fold e2.
  destruct (Z.land e2 PG_V =? 0) eqn:V2; cbn.
  { eexists false, _, [_; _; _].
    split; [rewrite <- !app_assoc; reflexivity|]. split; [reflexivity|].
    unfold entry_valid at 3. rewrite V2. cbn. intuition congruence. }
  destruct (xpmap_mtop (Z.land e2 PG_FRAME) =? 0) eqn:F2; cbn.
  { eexists false, _, [_; _; _].
    split; [rewrite <- !app_assoc; reflexivity|]. split; [reflexivity|].
    apply Z.eqb_eq in F2. intuition congruence. }
  rewrite Hpv. cbn. fold t1.
  eexists true, _, [_; _; _].
  split; [rewrite <- !app_assoc; reflexivity|]. split; [reflexivity|].
  cbn.
  split; [|split; [intros _; repeat split; reflexivity|split; [reflexivity|exact Hs]]].
  split; [intros _|reflexivity].
  rewrite <- !resolves_dec. auto.
Qed.

End Inspect.

(** The amended C4 on the hierarchy a hold has just built: the walk
    resolves and inspect returns true after three reads. *)
Lemma inspect_reads_only_witness :
  exists i' reads,
    Bench.inspect (Some Bench.pm) (Some Bench.ctx0) Bench.va (Bench.world_of Bench.held)
    = Ok (true, i', with_trace (trace (Bench.world_of Bench.held) ++ reads)
                      (Bench.world_of Bench.held)) /\
    forallb is_read reads = true.
Proof.
  destruct (inspect_reads_only Bench.ident Bench.VM_MAX Bench.ident
              Bench.pm Bench.ctx0 Bench.va (Bench.world_of Bench.held) Bench.ident)
    as (found & i' & reads & Hrun & Hreads & Hiff & _).
  - reflexivity.
  - reflexivity.
  - vm_compute. discriminate.
  - vm_compute. discriminate.
  - intros x Hx. exact Hx.
  - assert (Hf : found = true).
    { apply Hiff. vm_compute. repeat split; discriminate. }
    subst found. exists i', reads. split; [exact Hrun | exact Hreads].
Defined.

(** C4 as stated fails when a valid entry carries a frame that
    translates to physical address 0: the three governing entries of the
    walk are valid, yet inspect returns false. *)
Lemma inspect_false_on_valid_entries :
  entry_valid (peek Bench.ident (mem Bench.w_frame0)
                 (entry_addr 0x1000 (pml4t_index Bench.va))) = true /\
  entry_valid (peek Bench.ident (mem Bench.w_frame0)
                 (entry_addr 0x2000 (pdpt_index Bench.va))) = true /\
  entry_valid (peek Bench.ident (mem Bench.w_frame0)
                 (entry_addr 0x3000 (pdt_index Bench.va))) = true /\
  exists i' w',
    Bench.inspect (Some Bench.pm) (Some Bench.ctx0) Bench.va Bench.w_frame0
    = Ok (false, i', w') /\
    pml4t i' = 0x1000 /\ pdpt i' = 0x2000 /\ pdt i' = 0x3000.
Proof.
  split; [vm_compute; reflexivity|].
  split; [vm_compute; reflexivity|].
  split; [vm_compute; reflexivity|].
  eexists _, _. split; [vm_compute; reflexivity|].
  repeat split; reflexivity.
Qed.

(** ** hold *)

Lemma new_entry_flags (ma : Z) : new_entry ma = Z.lor ma link_flags.
Proof. unfold new_entry, link_flags. now rewrite <- !Z.lor_assoc. Qed.

Lemma link_flags_value : link_flags = 7.
Proof. reflexivity. Qed.

Section MonadLaws.

Context {B : Type}.
Implicit Types (i : mmu_map_index B) (w : world B).

Lemma bind_get {A C} (f : mmu_map_index B -> A) (k : A -> M C) i w :
  bind (get f) k i w = k (f i) i w.
Proof. reflexivity. Qed.

Lemma bind_put {C} (f : mmu_map_index B -> mmu_map_index B) (k : unit -> M C) i w :
  bind (put f) k i w = k tt (f i) w.
Proof. reflexivity. Qed.

Lemma bind_ret {A C} (a : A) (k : A -> M C) i w :
  bind (ret a) k i w = k a i w.
Proof. reflexivity. Qed.

Lemma bind_kassert_true {C} (k : unit -> M C) i w :
  bind (KASSERT true) k i w = k tt i w.
Proof. reflexivity. Qed.

Lemma bind_kassert_false {C} (k : unit -> M C) i w :
  bind (KASSERT false) k i w = Panic.
Proof. reflexivity. Qed.

Lemma bind_assoc {A A' C} (c : M A) (k1 : A -> M A') (k2 : A' -> M C) i w :
  bind (bind c k1) k2 i w = bind c (fun a => bind (k1 a) k2) i w.
Proof. unfold bind. destruct (c i w) as [[[a i'] w']| |]; reflexivity. Qed.

End MonadLaws.

Section Hold.

Context {B : Type}.
Variable xpmap_ptom : Z -> Z.
Variable xpmap_mtop : Z -> Z.
Variable VM_MAX_KERNEL_ADDRESS : Z.
Variable vtomach : Z -> Z.

(** The backend's callbacks. *)
Variable al : B -> Z * B.
Variable pv vp : Z -> Z.

Local Abbreviation hold :=
  (mmu_map_hold_va xpmap_ptom xpmap_mtop VM_MAX_KERNEL_ADDRESS vtomach).
Local Abbreviation step := (level_step xpmap_ptom xpmap_mtop vtomach al pv vp).

Implicit Types (i : mmu_map_index B) (w : world B).

Local Abbreviation cb := (has_callbacks al pv vp).

Ltac level_tac Hcb Hva Htbl :=
  destruct Hcb as (Hal & Hpv & Hvp);
  apply Z.eqb_neq in Htbl;
  unfold pmap_get_pdpt, pmap_get_pdt, pmap_get_pt, level_step, resolves_b,
    entry_valid, level_events;
  munfold; rewrite Hva; cbn; rewrite ?Htbl; cbn;
  match goal with
  | |- context [Z.land ?e PG_V =? 0] =>
      destruct (Z.land e PG_V =? 0); cbn;
      [| destruct (xpmap_mtop (Z.land e PG_FRAME) =? 0); cbn]
  end;
  try change (0 =? 0) with true; cbn;
  rewrite ?Hal, ?Hpv; cbn;
  try (destruct (al _) as [t b]; cbn; repeat (rewrite Hvp; cbn);
       rewrite <- !app_assoc, <- new_entry_flags);
  reflexivity.

Lemma hold_level4 {C} va (k : bool -> M C) i w tbl :
  cb i ->
  (va <=? VM_MAX_KERNEL_ADDRESS) = true ->
  pml4t i = tbl ->
  tbl <> 0 ->
  (pa <-- pmap_get_pdpt xpmap_mtop VM_MAX_KERNEL_ADDRESS vtomach va tbl ;;
   alloced <--
     (if pa =? 0 then
        n <-- call_alloc ;; put (set_pdpt n) ;;;
        t4 <-- get pml4t ;; t3 <-- get pdpt ;;
        link_table xpmap_ptom (entry_addr t4 (pml4t_index va)) t3 ;;;
        ret true
      else
        v <-- call_ptov pa ;; put (set_pdpt v) ;;; ret false) ;;
   k alloced) i w
  = let '(t, a, w') := step tbl (pml4t_index va) w in
    k a (set_pdpt t i) w'.
Proof.
  intros Hcb Hva <- Htbl. level_tac Hcb Hva Htbl.
Qed.

Lemma hold_level3 {C} va (prev : bool) (k : bool -> M C) i w tbl :
  cb i ->
  (va <=? VM_MAX_KERNEL_ADDRESS) = true ->
  pdpt i = tbl ->
  tbl <> 0 ->
  (pa <-- pmap_get_pdt xpmap_mtop VM_MAX_KERNEL_ADDRESS vtomach va tbl ;;
   alloced <--
     (if pa =? 0 then
        n <-- call_alloc ;; put (set_pdt n) ;;;
        t3 <-- get pdpt ;; t2 <-- get pdt ;;
        link_table xpmap_ptom (entry_addr t3 (pdpt_index va)) t2 ;;;
        ret true
      else
        v <-- call_ptov pa ;; put (set_pdt v) ;;; ret prev) ;;
   k alloced) i w
  = let '(t, a, w') := step tbl (pdpt_index va) w in
    k (a || prev) (set_pdt t i) w'.
Proof.
  intros Hcb Hva <- Htbl. level_tac Hcb Hva Htbl.
Qed.

Lemma hold_level2 {C} va (prev : bool) (k : bool -> M C) i w tbl :
  cb i ->
  (va <=? VM_MAX_KERNEL_ADDRESS) = true ->
  pdt i = tbl ->
  tbl <> 0 ->
  (pa <-- pmap_get_pt xpmap_mtop VM_MAX_KERNEL_ADDRESS vtomach va tbl ;;
   alloced <--
     (if pa =? 0 then
        n <-- call_alloc ;; put (set_pt n) ;;;
        t2 <-- get pdt ;; t1 <-- get pt ;;
        link_table xpmap_ptom (entry_addr t2 (pdt_index va)) t1 ;;;
        ret true
      else
        v <-- call_ptov pa ;; put (set_pt v) ;;; ret prev) ;;
   k alloced) i w
  = let '(t, a, w') := step tbl (pdt_index va) w in
    k (a || prev) (set_pt t i) w'.
Proof.
  intros Hcb Hva <- Htbl. level_tac Hcb Hva Htbl.
Qed.

(** A getter called on a null table panics. *)
Lemma get_null_panics {C} va (k : Z -> M C) i w :
  (va <=? VM_MAX_KERNEL_ADDRESS) = true ->
  bind (pmap_get_pdt xpmap_mtop VM_MAX_KERNEL_ADDRESS vtomach va 0) k i w = Panic /\
  bind (pmap_get_pt xpmap_mtop VM_MAX_KERNEL_ADDRESS vtomach va 0) k i w = Panic.
Proof.
  intros Hva. unfold pmap_get_pdt, pmap_get_pt. munfold. rewrite Hva.
  split; reflexivity.
Qed.

(** hold as three level steps. *)
Lemma hold_run (p : pmap) i va w :
  sanity i = SANE ->
  cb i ->
  va <= VM_MAX_KERNEL_ADDRESS ->
  pm_pml4 p <> 0 ->
  hold (Some p) (Some i) va w =
    let '(t3, a4, w4) := step (pm_pml4 p) (pml4t_index va) w in
    if t3 =? 0 then Panic
    else
      let '(t2, a3, w3) := step t3 (pdpt_index va) w4 in
      if t2 =? 0 then Panic
      else
        let '(t1, a2, w2) := step t2 (pdt_index va) w3 in
        Ok (a2 || (a3 || a4),
            {| pml4t := pm_pml4 p; pdpt := t3; pdt := t2; pt := t1;
               ptmb := ptmb i; sanity := SANE |},
            w2).
Proof.
  intros Hs Hcb Hva Hroot. apply Z.leb_le in Hva.
  pose proof Hroot as Hroot'. apply Z.eqb_neq in Hroot'.
  unfold mmu_map_hold_va, enter, hold_body, pmap_get_pml4t.
  rewrite bind_get, Hs, Z.eqb_refl, bind_kassert_true.
  rewrite bind_assoc, Hroot'. cbn [negb].
  rewrite bind_kassert_true, bind_ret, bind_put, bind_get. cbv beta zeta.
  rewrite (hold_level4 _ _ _ _ (pm_pml4 p)); [|exact Hcb|exact Hva|reflexivity|exact Hroot].
  destruct (step (pm_pml4 p) (pml4t_index va) w) as [[t3 a4] w4].
  rewrite bind_get. cbn [pdpt set_pdpt set_pml4t].
  destruct (t3 =? 0) eqn:E3.
  { apply Z.eqb_eq in E3. subst t3. now apply get_null_panics. }
  apply Z.eqb_neq in E3.
  rewrite (hold_level3 _ _ _ _ _ t3); [|exact Hcb|exact Hva|reflexivity|exact E3].
  destruct (step t3 (pdpt_index va) w4) as [[t2 a3] w3].
  rewrite bind_get. cbn [pdt set_pdt set_pdpt set_pml4t].
  destruct (t2 =? 0) eqn:E2.
  { apply Z.eqb_eq in E2. subst t2. now apply get_null_panics. }
  apply Z.eqb_neq in E2.
  rewrite (hold_level2 _ _ _ _ _ t2); [|exact Hcb|exact Hva|reflexivity|exact E2].
  destruct (step t2 (pdt_index va) w3) as [[t1 a2] w2].
  unfold ret, set_pt, set_pdt, set_pdpt, set_pml4t. cbn. rewrite Hs.
  reflexivity.
Qed.

Local Abbreviation rd := (peek vtomach).
Local Abbreviation lev := (level_events xpmap_ptom vp).
Local Abbreviation res := (resolves_b xpmap_mtop).

(** What one level step records and returns. *)
Lemma step_spec tbl idx w t a w' :
  step tbl idx w = (t, a, w') ->
  (forall b, (al b).1 <> 0) ->
  (forall x, x <> 0 -> pv x <> 0) ->
  let slot := entry_addr tbl idx in
  let e := rd (mem w) slot in
  trace w' = trace w ++ lev slot e (if a then Some t else None) /\
  a = negb (res e) /\
  t <> 0.
Proof.
  intros Hstep Hal Hpv slot e. unfold level_step in Hstep.
  fold slot e in Hstep.
  destruct (res e) eqn:Hres.
  - injection Hstep as <- <- <-. cbn.
    split; [reflexivity|]. split; [reflexivity|].
    apply Hpv. unfold resolves_b in Hres.
    apply andb_true_iff in Hres as [_ Hres].
    apply negb_true_iff in Hres. now apply Z.eqb_neq.
  - specialize (Hal (backend w)). destruct (al (backend w)) as [t' b].
    injection Hstep as <- <- <-. cbn.
    split; [reflexivity|]. split; [reflexivity|]. exact Hal.
Qed.

(** C9. On an initialised context whose allocator never returns null (and
    whose ptov maps no non-zero address to null), hold returns.  Level by
    level, root first, it reads the governing entry [e]; the level is
    allocated exactly when [e] does not resolve, in particular whenever
    [e] is invalid; an allocated level records the allocation of the new
    table, one update queued at the machine address of the parent entry
    slot with the value (machine address of the new table) OR
    (PG_RW | PG_V | PG_U), and a flush right after it.  The result is true
    exactly when some level was allocated. *)
Theorem hold_links_top_down (p : pmap) i va w :
  sanity i = SANE ->
  cb i ->
  va <= VM_MAX_KERNEL_ADDRESS ->
  pm_pml4 p <> 0 ->
  (forall b, (al b).1 <> 0) ->
  (forall x, x <> 0 -> pv x <> 0) ->
  exists e4 e3 e2 a4 a3 a2 i' w',
    hold (Some p) (Some i) va w = Ok (a4 || a3 || a2, i', w') /\
    pml4t i' = pm_pml4 p /\
    trace w' =
      trace w
      ++ lev (entry_addr (pml4t i') (pml4t_index va)) e4
           (if a4 then Some (pdpt i') else None)
      ++ lev (entry_addr (pdpt i') (pdpt_index va)) e3
           (if a3 then Some (pdt i') else None)
      ++ lev (entry_addr (pdt i') (pdt_index va)) e2
           (if a2 then Some (pt i') else None) /\
    e4 = rd (mem w) (entry_addr (pm_pml4 p) (pml4t_index va)) /\
    a4 = negb (res e4) /\ a3 = negb (res e3) /\ a2 = negb (res e2) /\
    (entry_valid e4 = false -> a4 = true) /\
    (entry_valid e3 = false -> a3 = true) /\
    (entry_valid e2 = false -> a2 = true) /\
    link_flags = Z.lor (Z.lor PG_RW PG_V) PG_U.
Proof.
  intros Hs Hcb Hva Hroot Hal Hpv.
  rewrite hold_run by assumption.
  destruct (step (pm_pml4 p) (pml4t_index va) w) as [[t3 a4] w4] eqn:S4.
  destruct (step_spec _ _ _ _ _ _ S4 Hal Hpv) as (T4 & A4 & N4).
  apply Z.eqb_neq in N4. rewrite N4.
  destruct (step t3 (pdpt_index va) w4) as [[t2 a3] w3] eqn:S3.
  destruct (step_spec _ _ _ _ _ _ S3 Hal Hpv) as (T3 & A3 & N3).
  apply Z.eqb_neq in N3. rewrite N3.
  destruct (step t2 (pdt_index va) w3) as [[t1 a2] w2] eqn:S2.
  destruct (step_spec _ _ _ _ _ _ S2 Hal Hpv) as (T2 & A2 & _).
  eexists _, _, _, a4, a3, a2, _, w2. cbn [pml4t pdpt pdt pt].
  split.
  { f_equal. f_equal. f_equal. destruct a4, a3, a2; reflexivity. }
  split; [reflexivity|].
  split; [rewrite T2, T3, T4, <- !app_assoc; reflexivity|].
  split; [reflexivity|].
  split; [exact A4|]. split; [exact A3|]. split; [exact A2|].
  unfold resolves_b in A4, A3, A2.
  split; [intros H; rewrite H in A4; exact A4|].
  split; [intros H; rewrite H in A3; exact A3|].
  split; [intros H; rewrite H in A2; exact A2|].
  reflexivity.
Qed.

(** A hold that returns was given an initialised context, an address
    within bounds and a non-null root. *)
Lemma hold_ok_pre (p : pmap) i va w r :
  hold (Some p) (Some i) va w = Ok r ->
  sanity i = SANE /\ va <= VM_MAX_KERNEL_ADDRESS /\ pm_pml4 p <> 0.
Proof.
  unfold mmu_map_hold_va, enter, hold_body, pmap_get_pml4t, pmap_get_pdpt.
  rewrite bind_get.
  destruct (sanity i =? SANE) eqn:Es; [|discriminate].
  rewrite bind_kassert_true, bind_assoc.
  destruct (pm_pml4 p =? 0) eqn:Er; [discriminate|]. cbn [negb].
  rewrite bind_kassert_true, bind_ret, bind_put, bind_get, !bind_assoc.
  destruct (va <=? VM_MAX_KERNEL_ADDRESS) eqn:Ev; [|discriminate].
  intros _. split; [now apply Z.eqb_eq|].
  split; [now apply Z.leb_le | now apply Z.eqb_neq].
Qed.

(** *** The hierarchy after a hold *)

Local Abbreviation rto := (resolved_to xpmap_mtop vtomach pv).
Local Abbreviation lb := (links_back xpmap_ptom xpmap_mtop pv vp).

Lemma step_resolved tbl idx w t :
  rto (mem w) tbl idx t ->
  step tbl idx w
  = (t, false,
     with_trace (trace w ++ [EvRead (entry_addr tbl idx)
                               (rd (mem w) (entry_addr tbl idx))]) w).
Proof.
  unfold resolved_to, level_step. intros [H1 H2]. now rewrite H1, H2.
Qed.

Lemma step_queue tbl idx w t a w' :
  step tbl idx w = (t, a, w') -> queue w = [] -> queue w' = [].
Proof.
  unfold level_step. intros Hstep Hq.
  destruct (res _).
  - injection Hstep as <- <- <-. exact Hq.
  - destruct (al (backend w)). injection Hstep as <- <- <-. reflexivity.
Qed.

Lemma step_links tbl idx w t a w' :
  step tbl idx w = (t, a, w') ->
  queue w = [] ->
  xpmap_ptom (vp (entry_addr tbl idx)) = vtomach (entry_addr tbl idx) ->
  lb t = true ->
  rto (mem w') tbl idx t.
Proof.
  unfold level_step. intros Hstep Hq Hag Hlb.
  destruct (res (rd (mem w) (entry_addr tbl idx))) eqn:Hres.
  - injection Hstep as <- <- <-. split; [exact Hres|reflexivity].
  - destruct (al (backend w)) as [t' b]. injection Hstep as <- <- <-.
    unfold resolved_to. cbn [mem]. rewrite Hq, Hag. cbn [app].
    unfold apply_updates, peek. cbn [foldl fst snd].
    rewrite lookup_insert_eq. cbn [default].
    unfold links_back in Hlb. apply andb_true_iff in Hlb as [H1 H2].
    split; [exact H1|]. now apply Z.eqb_eq.
Qed.

Lemma step_frame tbl idx w t a w' s :
  step tbl idx w = (t, a, w') ->
  queue w = [] ->
  vtomach s <> xpmap_ptom (vp (entry_addr tbl idx)) ->
  rd (mem w') s = rd (mem w) s.
Proof.
  unfold level_step. intros Hstep Hq Hne.
  destruct (res _).
  - injection Hstep as <- <- <-. reflexivity.
  - destruct (al (backend w)) as [t' b]. injection Hstep as <- <- <-.
    cbn [mem]. rewrite Hq. cbn [app].
    unfold apply_updates, peek. cbn [foldl fst snd].
    rewrite lookup_insert_ne by congruence. reflexivity.
Qed.

Lemma rto_frame (m m' : gmap Z Z) tbl idx t :
  rd m' (entry_addr tbl idx) = rd m (entry_addr tbl idx) ->
  rto m tbl idx t -> rto m' tbl idx t.
Proof. unfold resolved_to. intros ->. trivial. Qed.

(** After a hold, under faithful translations, every governing entry of
    the address resolves to the table the context refers to. *)
Lemma hold_post (p : pmap) i va w a1 i1 w1 :
  sanity i = SANE ->
  cb i ->
  va <= VM_MAX_KERNEL_ADDRESS ->
  pm_pml4 p <> 0 ->
  queue w = [] ->
  hold (Some p) (Some i) va w = Ok (a1, i1, w1) ->
  let s4 := entry_addr (pml4t i1) (pml4t_index va) in
  let s3 := entry_addr (pdpt i1) (pdpt_index va) in
  let s2 := entry_addr (pdt i1) (pdt_index va) in
  xpmap_ptom (vp s4) = vtomach s4 ->
  xpmap_ptom (vp s3) = vtomach s3 ->
  xpmap_ptom (vp s2) = vtomach s2 ->
  vtomach s4 <> vtomach s3 ->
  vtomach s4 <> vtomach s2 ->
  vtomach s3 <> vtomach s2 ->
  lb (pdpt i1) = true -> lb (pdt i1) = true -> lb (pt i1) = true ->
  pml4t i1 = pm_pml4 p /\ pdpt i1 <> 0 /\ pdt i1 <> 0 /\
  ptmb i1 = ptmb i /\ sanity i1 = SANE /\ queue w1 = [] /\
  rto (mem w1) (pml4t i1) (pml4t_index va) (pdpt i1) /\
  rto (mem w1) (pdpt i1) (pdpt_index va) (pdt i1) /\
  rto (mem w1) (pdt i1) (pdt_index va) (pt i1).
Proof.
  intros Hs Hcb Hva Hroot Hq Hhold.
  rewrite hold_run in Hhold by assumption.
  destruct (step (pm_pml4 p) (pml4t_index va) w) as [[t3 a4] w4] eqn:S4.
  destruct (t3 =? 0) eqn:N3; [discriminate|].
  destruct (step t3 (pdpt_index va) w4) as [[t2 a3] w3] eqn:S3.
  destruct (t2 =? 0) eqn:N2; [discriminate|].
  destruct (step t2 (pdt_index va) w3) as [[t1 a2] w2] eqn:S2.
  injection Hhold as <- <- <-. intros s4 s3 s2.
  cbn [pml4t pdpt pdt pt ptmb sanity] in *.
  intros G4 G3 G2 D43 D42 D32 L3 L2 L1.
  pose proof (step_queue _ _ _ _ _ _ S4 Hq) as Q4.
  pose proof (step_queue _ _ _ _ _ _ S3 Q4) as Q3.
  pose proof (step_queue _ _ _ _ _ _ S2 Q3) as Q2.
  apply Z.eqb_neq in N3, N2.
  repeat (split; [first [reflexivity | assumption]|]).
  split; [|split].
  - apply (rto_frame (mem w3)).
    { apply (step_frame _ _ _ _ _ _ _ S2 Q3). fold s2 s4. rewrite G2. exact D42. }
    apply (rto_frame (mem w4)).
    { apply (step_frame _ _ _ _ _ _ _ S3 Q4). fold s3 s4. rewrite G3. exact D43. }
    exact (step_links _ _ _ _ _ _ S4 Hq G4 L3).
  - apply (rto_frame (mem w3)).
    { apply (step_frame _ _ _ _ _ _ _ S2 Q3). fold s2 s3. rewrite G2. exact D32. }
    exact (step_links _ _ _ _ _ _ S3 Q4 G3 L2).
  - exact (step_links _ _ _ _ _ _ S2 Q3 G2 L1).
Qed.

Local Abbreviation inspect :=
  (mmu_map_inspect_va xpmap_mtop VM_MAX_KERNEL_ADDRESS vtomach).

(** The three reads of a walk that resolves at every level. *)
Local Abbreviation walk_reads m root t3 t2 va :=
  [EvRead (entry_addr root (pml4t_index va))
     (rd m (entry_addr root (pml4t_index va)));
   EvRead (entry_addr t3 (pdpt_index va)) (rd m (entry_addr t3 (pdpt_index va)));
   EvRead (entry_addr t2 (pdt_index va)) (rd m (entry_addr t2 (pdt_index va)))].

(** hold on a hierarchy that resolves at every level. *)
Lemma hold_resolved (p : pmap) j va w t3 t2 t1 :
  sanity j = SANE ->
  cb j ->
  va <= VM_MAX_KERNEL_ADDRESS ->
  pm_pml4 p <> 0 -> t3 <> 0 -> t2 <> 0 ->
  rto (mem w) (pm_pml4 p) (pml4t_index va) t3 ->
  rto (mem w) t3 (pdpt_index va) t2 ->
  rto (mem w) t2 (pdt_index va) t1 ->
  hold (Some p) (Some j) va w
  = Ok (false,
        {| pml4t := pm_pml4 p; pdpt := t3; pdt := t2; pt := t1;
           ptmb := ptmb j; sanity := SANE |},
        with_trace (trace w ++ walk_reads (mem w) (pm_pml4 p) t3 t2 va) w).
Proof.
  intros Hs Hcb Hva Hroot N3 N2 R4 R3 R2.
  rewrite hold_run by assumption.
  rewrite (step_resolved _ _ _ _ R4).
  apply Z.eqb_neq in N3, N2. rewrite N3.
  match goal with |- context [step t3 _ ?w4] =>
    change (mem w) with (mem w4) in R3, R2;
    rewrite (step_resolved _ _ w4 _ R3)
  end.
  rewrite N2.
  match goal with |- context [step t2 _ ?w3] =>
    change (mem w) with (mem w3) in R2;
    rewrite (step_resolved _ _ w3 _ R2)
  end.
  unfold with_trace. cbn. rewrite <- !app_assoc. reflexivity.
Qed.

(** inspect on a hierarchy that resolves at every level. *)
Lemma inspect_resolved (p : pmap) j va w t3 t2 t1 :
  sanity j = SANE ->
  ptov (ptmb j) = Some pv ->
  va <= VM_MAX_KERNEL_ADDRESS ->
  pm_pml4 p <> 0 -> t3 <> 0 -> t2 <> 0 ->
  rto (mem w) (pm_pml4 p) (pml4t_index va) t3 ->
  rto (mem w) t3 (pdpt_index va) t2 ->
  rto (mem w) t2 (pdt_index va) t1 ->
  inspect (Some p) (Some j) va w
  = Ok (true,
        {| pml4t := pm_pml4 p; pdpt := t3; pdt := t2; pt := t1;
           ptmb := ptmb j; sanity := SANE |},
        with_trace (trace w ++ walk_reads (mem w) (pm_pml4 p) t3 t2 va) w).
Proof.
  intros Hs Hpv Hva Hroot N3 N2 (R4 & <-) (R3 & <-) (R2 & <-).
  apply Z.leb_le in Hva. apply Z.eqb_neq in Hroot, N3, N2.
  unfold resolves_b, entry_valid in R4, R3, R2.
  apply andb_true_iff in R4 as [V4 F4], R3 as [V3 F3], R2 as [V2 F2].
  apply negb_true_iff in V4, F4, V3, F3, V2, F2.
  unfold mmu_map_inspect_va, inspect_body, pmap_get_pml4t, pmap_get_pdpt,
    pmap_get_pdt, pmap_get_pt.
  munfold. rewrite !Hva, Hs, Z.eqb_refl. cbn.
  repeat (progress
            (rewrite ?Hroot, ?V4, ?F4, ?Hpv, ?N3, ?V3, ?F3, ?N2, ?V2, ?F2; cbn)).
  unfold set_pt, set_pdt, set_pdpt, set_pml4t. cbn.
  rewrite Hs, <- !app_assoc. reflexivity.
Qed.

(** C5. hold is idempotent: when a first hold of [va] has returned, on a
    world with no update pending, and the backend's translations are
    faithful on the walk (vtop and xpmap_ptom name the machine word of
    each governing entry, the three governing entries are distinct words,
    and the entry written for each table leads back to it), a second hold
    of [va] on the resulting context and world returns false, leaves the
    context as it is, and records three reads and nothing else: no
    allocation, no update, and memory and allocator are unchanged. *)
Theorem hold_idempotent (p : pmap) i va w a1 i1 w1 :
  cb i ->
  queue w = [] ->
  hold (Some p) (Some i) va w = Ok (a1, i1, w1) ->
  let s4 := entry_addr (pml4t i1) (pml4t_index va) in
  let s3 := entry_addr (pdpt i1) (pdpt_index va) in
  let s2 := entry_addr (pdt i1) (pdt_index va) in
  xpmap_ptom (vp s4) = vtomach s4 ->
  xpmap_ptom (vp s3) = vtomach s3 ->
  xpmap_ptom (vp s2) = vtomach s2 ->
  vtomach s4 <> vtomach s3 ->
  vtomach s4 <> vtomach s2 ->
  vtomach s3 <> vtomach s2 ->
  lb (pdpt i1) = true -> lb (pdt i1) = true -> lb (pt i1) = true ->
  exists reads,
    hold (Some p) (Some i1) va w1
    = Ok (false, i1, with_trace (trace w1 ++ reads) w1) /\
    forallb is_read reads = true.
Proof.
  intros Hcb Hq Hhold s4 s3 s2 G4 G3 G2 D43 D42 D32 L3 L2 L1.
  destruct (hold_ok_pre _ _ _ _ _ Hhold) as (Hs & Hva & Hroot).
  destruct (hold_post p i va w a1 i1 w1 Hs Hcb Hva Hroot Hq Hhold
              G4 G3 G2 D43 D42 D32 L3 L2 L1)
    as (E4 & N3 & N2 & Emb & Es & _ & R4 & R3 & R2).
  rewrite E4 in R4.
  eexists. split.
  - rewrite (hold_resolved p i1 va w1 (pdpt i1) (pdt i1) (pt i1));
      try assumption.
    + f_equal. f_equal. f_equal.
      destruct i1; cbn in *. now subst.
    + unfold has_callbacks. now rewrite Emb.
  - reflexivity.
Qed.

(** C6. When a hold of [va] has returned (same conditions as for C5),
    inspect of [va] on the resulting world, with any initialised context
    using the same ptov, returns true and leaves in that context the four
    table references the hold produced; it records three reads and
    nothing else. *)
Theorem inspect_after_hold (p : pmap) i va w a1 i1 w1 (j : mmu_map_index B) :
  cb i ->
  queue w = [] ->
  hold (Some p) (Some i) va w = Ok (a1, i1, w1) ->
  let s4 := entry_addr (pml4t i1) (pml4t_index va) in
  let s3 := entry_addr (pdpt i1) (pdpt_index va) in
  let s2 := entry_addr (pdt i1) (pdt_index va) in
  xpmap_ptom (vp s4) = vtomach s4 ->
  xpmap_ptom (vp s3) = vtomach s3 ->
  xpmap_ptom (vp s2) = vtomach s2 ->
  vtomach s4 <> vtomach s3 ->
  vtomach s4 <> vtomach s2 ->
  vtomach s3 <> vtomach s2 ->
  lb (pdpt i1) = true -> lb (pdt i1) = true -> lb (pt i1) = true ->
  sanity j = SANE ->
  ptov (ptmb j) = Some pv ->
  exists j' reads,
    inspect (Some p) (Some j) va w1
    = Ok (true, j', with_trace (trace w1 ++ reads) w1) /\
    forallb is_read reads = true /\
    pml4t j' = pml4t i1 /\ pdpt j' = pdpt i1 /\
    pdt j' = pdt i1 /\ pt j' = pt i1.
Proof.
  intros Hcb Hq Hhold s4 s3 s2 G4 G3 G2 D43 D42 D32 L3 L2 L1 Hsj Hpvj.
  destruct (hold_ok_pre _ _ _ _ _ Hhold) as (Hs & Hva & Hroot).
  destruct (hold_post p i va w a1 i1 w1 Hs Hcb Hva Hroot Hq Hhold
              G4 G3 G2 D43 D42 D32 L3 L2 L1)
    as (E4 & N3 & N2 & Emb & Es & _ & R4 & R3 & R2).
  rewrite E4 in R4.
  eexists _, _. split.
  - apply (inspect_resolved p j va w1 (pdpt i1) (pdt i1) (pt i1));
      assumption.
  - cbn. rewrite E4. repeat split; reflexivity.
Qed.

End Hold.

(** *** The statements about hold on the test bench *)

(** C9 on the bench: the hold of the end-to-end scenario returns. *)
Lemma hold_links_top_down_witness :
  exists a i' w',
    Bench.hold (Some Bench.pm) (Some Bench.ctx0) Bench.va Bench.w0 = Ok (a, i', w') /\
    pml4t i' = pm_pml4 Bench.pm.
Proof.
  destruct (hold_links_top_down Bench.ident Bench.ident Bench.VM_MAX Bench.ident
              Bench.bump Bench.ident Bench.ident Bench.pm Bench.ctx0 Bench.va Bench.w0)
    as (e4 & e3 & e2 & a4 & a3 & a2 & i' & w' & Hrun & Hroot & _).
  - reflexivity.
  - repeat split; reflexivity.
  - unfold Bench.va, Bench.VM_MAX. lia.
  - cbn. lia.
  - intros n. unfold Bench.bump, Bench.page_addr. cbn [fst]. lia.
  - intros x Hx. exact Hx.
  - exists (a4 || a3 || a2), i', w'. split; [exact Hrun | exact Hroot].
Defined.

(** C5 on the bench: a second hold after the hold of the scenario. *)
Lemma hold_idempotent_witness :
  exists reads,
    Bench.hold (Some Bench.pm) (Some (Bench.ctx_of Bench.held)) Bench.va
      (Bench.world_of Bench.held)
    = Ok (false, Bench.ctx_of Bench.held,
          with_trace (trace (Bench.world_of Bench.held) ++ reads)
            (Bench.world_of Bench.held)) /\
    forallb is_read reads = true.
Proof.
  apply (hold_idempotent Bench.ident Bench.ident Bench.VM_MAX Bench.ident
           Bench.bump Bench.ident Bench.ident Bench.pm Bench.ctx0 Bench.va
           Bench.w0 true (Bench.ctx_of Bench.held) (Bench.world_of Bench.held)).
  - repeat split; reflexivity.
  - reflexivity.
  - vm_compute. reflexivity.
  - reflexivity.
  - reflexivity.
  - reflexivity.
  - vm_compute. discriminate.
  - vm_compute. discriminate.
  - vm_compute. discriminate.
  - vm_compute. reflexivity.
  - vm_compute. reflexivity.
  - vm_compute. reflexivity.
Defined.

(** C6 on the bench: inspect with a fresh context after the hold of the
    scenario. *)
Lemma inspect_after_hold_witness :
  exists j' reads,
    Bench.inspect (Some Bench.pm) (Some Bench.ctx0) Bench.va (Bench.world_of Bench.held)
    = Ok (true, j', with_trace (trace (Bench.world_of Bench.held) ++ reads)
                      (Bench.world_of Bench.held)) /\
    forallb is_read reads = true /\
    pml4t j' = pml4t (Bench.ctx_of Bench.held) /\
    pdpt j' = pdpt (Bench.ctx_of Bench.held) /\
    pdt j' = pdt (Bench.ctx_of Bench.held) /\
    pt j' = pt (Bench.ctx_of Bench.held).
Proof.
  apply (inspect_after_hold Bench.ident Bench.ident Bench.VM_MAX Bench.ident
           Bench.bump Bench.ident Bench.ident Bench.pm Bench.ctx0 Bench.va
           Bench.w0 true (Bench.ctx_of Bench.held) (Bench.world_of Bench.held)
           Bench.ctx0).
  - repeat split; reflexivity.
  - reflexivity.
  - vm_compute. reflexivity.
  - reflexivity.
  - reflexivity.
  - reflexivity.
  - vm_compute. discriminate.
  - vm_compute. discriminate.
  - vm_compute. discriminate.
  - vm_compute. reflexivity.
  - vm_compute. reflexivity.
  - vm_compute. reflexivity.
  - reflexivity.
  - reflexivity.
Defined.

(** ** release *)

Section Release.

Context {B : Type}.
Variable xpmap_ptom : Z -> Z.
Variable vtomach : Z -> Z.

Local Abbreviation release := (mmu_map_release_va xpmap_ptom vtomach).
Local Abbreviation rel_pt := (release_pt xpmap_ptom vtomach).
Local Abbreviation rel_pdt := (release_pdt xpmap_ptom vtomach).
Local Abbreviation rel_pdpt := (release_pdpt xpmap_ptom vtomach).

Implicit Types (i : mmu_map_index B) (w : world B).

(** release as its three blocks. *)
Lemma release_run (p : pmap) i va w :
  sanity i = SANE ->
  pm_pml4 p <> 0 ->
  (pt i <> 0 -> pdt i <> 0) ->
  release (Some p) (Some i) va w =
    match rel_pt va (set_pml4t (pm_pml4 p) i) w with
    | Ok (true, i1, w1) =>
        match rel_pdt va i1 w1 with
        | Ok (true, i2, w2) => rel_pdpt va i2 w2
        | Ok (false, i2, w2) => Ok (tt, i2, w2)
        | Panic => Panic
        | Fault => Fault
        end
    | Ok (false, i1, w1) => Ok (tt, i1, w1)
    | Panic => Panic
    | Fault => Fault
    end.
Proof.
  intros Hs Hroot Hpt. apply Z.eqb_neq in Hroot.
  unfold mmu_map_release_va, enter, release_body, pmap_get_pml4t.
  rewrite bind_get, Hs, Z.eqb_refl, bind_kassert_true.
  rewrite bind_assoc, Hroot. cbn [negb].
  rewrite bind_kassert_true, bind_ret, bind_put, bind_get.
  cbn [pml4t set_pml4t]. rewrite Hroot.
  rewrite !bind_get. cbn [pt pdt set_pml4t].
  assert (Hk : forall {C} (k : unit -> M C) i' w',
             bind (if negb (pt i =? 0) then KASSERT (negb (pdt i =? 0)) else ret tt)
               k i' w' = k tt i' w').
  { intros C k i' w'. destruct (pt i =? 0) eqn:E1; cbn [negb].
    - reflexivity.
    - apply Z.eqb_neq in E1. apply Hpt, Z.eqb_neq in E1. now rewrite E1. }
  rewrite Hk. unfold bind at 1.
  destruct (rel_pt va (set_pml4t (pm_pml4 p) i) w) as [[[[] i1] w1]| |];
    try reflexivity.
  unfold bind at 1.
  destruct (rel_pdt va i1 w1) as [[[[] i2] w2]| |]; reflexivity.
Qed.

(** *** The self-mapping checks *)




(** *** The emptiness test of the two upper blocks

    Both upper blocks test [pti->pt]; once the leaf table is absent the
    test dereferences a null pointer, whatever the block's own table
    holds. *)


Lemma rel_pdpt_null_pt va i w :
  pml4t i <> 0 -> pdpt i <> 0 -> atop (pdpt i) <> atop va -> pt i = 0 ->
  rel_pdpt va i w = Fault.
Proof.
  intros H4 H3 Hs H1. apply Z.eqb_neq in H4, H3, Hs.
  unfold release_pdpt. munfold. cbn. rewrite H4. cbn. rewrite H3. cbn.
  rewrite Hs. cbn. rewrite H1. reflexivity.
Qed.

(** The leaf block touches nothing but the leaf table and its governing
    entry. *)
Lemma rel_pt_events va i w go i1 w1 :
  rel_pt va i w = Ok (go, i1, w1) ->
  exists evs,
    trace w1 = trace w ++ evs /\
    Forall (leaf_event (entry_addr (pdt i) (pdt_index va)) (pt i)) evs.
Proof.
  unfold release_pt. munfold. cbn.
  destruct (pdt i =? 0); cbn.
  { intros [= <- <- <-]. exists []. split; [now rewrite app_nil_r|constructor]. }
  destruct (pt i =? 0); cbn.
  { destruct (peek vtomach (mem w) _ =? 0); cbn; [|discriminate].
    destruct (pdpt i =? 0); cbn; [discriminate|].
    intros [= <- <- <-]. eexists. split; [reflexivity|].
    repeat constructor. }
  destruct (atop (pt i) =? atop va); cbn.
  { intros [= <- <- <-]. exists []. split; [now rewrite app_nil_r|constructor]. }
  destruct (find _ _); cbn.
  { destruct (pdpt i =? 0); cbn; [discriminate|].
    intros [= <- <- <-]. eexists. split; [reflexivity|].
    repeat constructor. }
  destruct (vtop (ptmb i)); cbn; [|discriminate].
  destruct (free (ptmb i)); cbn;
    (destruct (pdpt i =? 0); cbn; [discriminate|]);
    intros [= <- <- <-]; cbn; rewrite <- !app_assoc;
    (eexists; split; [reflexivity|]); repeat constructor.
Qed.

(** *** What release can free

    The blocks of the pdt and of the pdpt test the leaf table, so they
    free nothing unless the leaf table is empty, and fault when it is
    absent. *)

Local Abbreviation live := (page_live vtomach).

Lemma rel_pt_post va i w i1 w1 :
  rel_pt va i w = Ok (true, i1, w1) ->
  (pt i <> 0 -> pdt i <> 0) ->
  pml4t i1 = pml4t i /\ pdpt i1 = pdpt i /\ pdt i1 = pdt i /\
  (pt i1 = 0 \/ (pt i1 = pt i /\ live (mem w1) (pt i1))).
Proof.
  unfold release_pt, page_live. munfold. cbn. intros Hrun Hpt.
  destruct (pdt i =? 0) eqn:E2; cbn in Hrun.
  { injection Hrun as <- <-. repeat split. left.
    apply Z.eqb_eq in E2. destruct (Z.eq_dec (pt i) 0) as [E|E]; [exact E|].
    now apply Hpt in E. }
  destruct (pt i =? 0) eqn:E1; cbn in Hrun.
  { destruct (peek vtomach (mem w) _ =? 0); cbn in Hrun; [|discriminate].
    destruct (pdpt i =? 0); cbn in Hrun; [discriminate|].
    injection Hrun as <- <-. repeat split. left. now apply Z.eqb_eq. }
  destruct (atop (pt i) =? atop va); cbn in Hrun; [discriminate|].
  destruct (find _ _) eqn:Ef; cbn in Hrun.
  { destruct (pdpt i =? 0); cbn in Hrun; [discriminate|].
    injection Hrun as <- <-. repeat split. right. cbn.
    split; [reflexivity|]. rewrite Ef. discriminate. }
  destruct (vtop (ptmb i)); cbn in Hrun; [|discriminate].
  destruct (free (ptmb i)); cbn in Hrun;
    (destruct (pdpt i =? 0); cbn in Hrun; [discriminate|]);
    injection Hrun as <- <-; repeat split; now left.
Qed.

Ltac upper_tac :=
  repeat (constructor; try exact I; try (split; [reflexivity|assumption])).

Lemma rel_pdt_post va i w go i2 w2 :
  rel_pdt va i w = Ok (go, i2, w2) ->
  (pt i = 0 \/ live (mem w) (pt i)) ->
  i2 = i /\ mem w2 = mem w /\
  exists evs, trace w2 = trace w ++ evs /\ Forall (upper_event (pt i)) evs.
Proof.
  unfold release_pdt, page_live. munfold. cbn. intros Hrun Hlive.
  destruct (pdpt i =? 0); cbn in Hrun.
  { injection Hrun as <- <- <-. repeat split. exists [].
    split; [now rewrite app_nil_r|constructor]. }
  destruct (pdt i =? 0); cbn in Hrun.
  - destruct (peek vtomach (mem w) _ =? 0); cbn in Hrun; [|discriminate].
    destruct (atop (pdt i) =? atop va); cbn in Hrun.
    { injection Hrun as <- <- <-. repeat split. eexists.
      split; [reflexivity|upper_tac]. }
    destruct (pt i =? 0) eqn:E1; cbn in Hrun; [discriminate|].
    apply Z.eqb_neq in E1.
    destruct Hlive as [E|Hlive]; [contradiction|].
    destruct (find _ _); [|contradiction]. cbn in Hrun.
    destruct (pml4t i =? 0); cbn in Hrun; [discriminate|].
    injection Hrun as <- <- <-. cbn. rewrite <- !app_assoc. repeat split.
    eexists. split; [reflexivity|upper_tac].
  - destruct (atop (pdt i) =? atop va); cbn in Hrun.
    { injection Hrun as <- <- <-. repeat split. exists [].
      split; [now rewrite app_nil_r|constructor]. }
    destruct (pt i =? 0) eqn:E1; cbn in Hrun; [discriminate|].
    apply Z.eqb_neq in E1.
    destruct Hlive as [E|Hlive]; [contradiction|].
    destruct (find _ _); [|contradiction]. cbn in Hrun.
    destruct (pml4t i =? 0); cbn in Hrun; [discriminate|].
    injection Hrun as <- <- <-. cbn. repeat split.
    eexists. split; [reflexivity|upper_tac].
Qed.

Lemma rel_pdpt_post va i w i3 w3 :
  rel_pdpt va i w = Ok (tt, i3, w3) ->
  (pt i = 0 \/ live (mem w) (pt i)) ->
  i3 = i /\ mem w3 = mem w /\
  exists evs, trace w3 = trace w ++ evs /\ Forall (upper_event (pt i)) evs.
Proof.
  unfold release_pdpt, page_live. munfold. cbn. intros Hrun Hlive.
  destruct (pml4t i =? 0); cbn in Hrun.
  { injection Hrun as <- <-. repeat split. exists [].
    split; [now rewrite app_nil_r|constructor]. }
  destruct (pdpt i =? 0); cbn in Hrun.
  - destruct (peek vtomach (mem w) _ =? 0); cbn in Hrun; [|discriminate].
    destruct (atop (pdpt i) =? atop va); cbn in Hrun.
    { injection Hrun as <- <-. repeat split. eexists.
      split; [reflexivity|upper_tac]. }
    destruct (pt i =? 0) eqn:E1; cbn in Hrun; [discriminate|].
    apply Z.eqb_neq in E1.
    destruct Hlive as [E|Hlive]; [contradiction|].
    destruct (find _ _); [|contradiction]. cbn in Hrun.
    injection Hrun as <- <-. cbn. rewrite <- !app_assoc. repeat split.
    eexists. split; [reflexivity|upper_tac].
  - destruct (atop (pdpt i) =? atop va); cbn in Hrun.
    { injection Hrun as <- <-. repeat split. exists [].
      split; [now rewrite app_nil_r|constructor]. }
    destruct (pt i =? 0) eqn:E1; cbn in Hrun; [discriminate|].
    apply Z.eqb_neq in E1.
    destruct Hlive as [E|Hlive]; [contradiction|].
    destruct (find _ _); [|contradiction]. cbn in Hrun.
    injection Hrun as <- <-. cbn. repeat split.
    eexists. split; [reflexivity|upper_tac].
Qed.

Lemma rel_pt_false va i w i1 w1 :
  rel_pt va i w = Ok (false, i1, w1) -> i1 = i /\ w1 = w.
Proof.
  unfold release_pt. munfold. cbn. intros Hrun.
  destruct (pdt i =? 0); cbn in Hrun; [discriminate|].
  destruct (pt i =? 0); cbn in Hrun.
  { destruct (peek vtomach (mem w) _ =? 0); cbn in Hrun; [|discriminate].
    destruct (pdpt i =? 0); cbn in Hrun; discriminate. }
  destruct (atop (pt i) =? atop va); cbn in Hrun.
  { injection Hrun as <- <-. split; reflexivity. }
  destruct (find _ _); cbn in Hrun.
  { destruct (pdpt i =? 0); cbn in Hrun; discriminate. }
  destruct (vtop (ptmb i)); cbn in Hrun; [|discriminate].
  destruct (free (ptmb i)); cbn in Hrun;
    destruct (pdpt i =? 0); cbn in Hrun; discriminate.
Qed.

Lemma leaf_event_leaf_only s q e : leaf_event s q e -> leaf_only q e.
Proof. destruct e; cbn; auto. Qed.

Lemma upper_event_leaf_only q q' e :
  (q <> 0 -> q = q') -> upper_event q e -> leaf_only q' e.
Proof.
  intros Hq. destruct e; cbn; auto; try contradiction.
  intros [-> Hn]. auto.
Qed.

(** Whenever release returns, it has freed and scanned no table but the
    leaf table, and the pdt and pdpt references of the context are what
    they were: the two upper tables are never released. *)
Lemma release_keeps_upper_tables (p : pmap) i va w i' w' :
  sanity i = SANE ->
  pm_pml4 p <> 0 ->
  (pt i <> 0 -> pdt i <> 0) ->
  release (Some p) (Some i) va w = Ok (tt, i', w') ->
  pdpt i' = pdpt i /\ pdt i' = pdt i /\
  exists evs, trace w' = trace w ++ evs /\ Forall (leaf_only (pt i)) evs.
Proof.
  intros Hs Hroot Hpt Hrun. rewrite release_run in Hrun by assumption.
  destruct (rel_pt va (set_pml4t (pm_pml4 p) i) w) as [[[[] i1] w1]| |] eqn:R1;
    try discriminate.
  - destruct (rel_pt_events _ _ _ _ _ _ R1) as (evs1 & T1 & F1).
    pose proof (Forall_impl _ _ _ F1 (leaf_event_leaf_only _ _)) as F1'.
    cbn [pt pdt set_pml4t] in F1'.
    destruct (rel_pt_post _ _ _ _ _ R1 Hpt) as (_ & P3 & P2 & P1).
    cbn [pt pdt pdpt set_pml4t] in P3, P2, P1.
    assert (Hlive : pt i1 = 0 \/ page_live vtomach (mem w1) (pt i1)) by tauto.
    assert (Hq : pt i1 <> 0 -> pt i1 = pt i) by (destruct P1; tauto).
    destruct (rel_pdt va i1 w1) as [[[[] i2] w2]| |] eqn:R2; try discriminate.
    + destruct (rel_pdt_post _ _ _ _ _ _ R2 Hlive) as (-> & M2 & evs2 & T2 & F2).
      rewrite <- M2 in Hlive.
      destruct (rel_pdpt_post _ _ _ _ _ Hrun Hlive) as (-> & _ & evs3 & T3 & F3).
      split; [exact P3|]. split; [exact P2|].
      exists (evs1 ++ evs2 ++ evs3).
      split; [rewrite T3, T2, T1, <- !app_assoc; reflexivity|].
      repeat apply Forall_app_2; [exact F1'| |];
        eapply Forall_impl; eauto using upper_event_leaf_only.
    + injection Hrun as <- <-.
      destruct (rel_pdt_post _ _ _ _ _ _ R2 Hlive) as (-> & _ & evs2 & T2 & F2).
      split; [exact P3|]. split; [exact P2|].
      exists (evs1 ++ evs2).
      split; [rewrite T2, T1, <- !app_assoc; reflexivity|].
      apply Forall_app_2; [exact F1'|].
      eapply Forall_impl; eauto using upper_event_leaf_only.
  - injection Hrun as <- <-.
    destruct (rel_pt_false _ _ _ _ _ R1) as (-> & ->).
    split; [reflexivity|]. split; [reflexivity|].
    exists []. split; [now rewrite app_nil_r|constructor].
Qed.

(** *** The blocks below a self-mapped level *)

Local Abbreviation rd := (peek vtomach).







End Release.

(** *** The statements about release on the test bench *)



(** C1 on the end-to-end scenario. The hold allocates the three tables;
    the leaf block of the release that follows scans the leaf table, has
    its governing entry zeroed and frees it; the pdt block then tests
    [pti->pt], which is now null, and the whole call faults: neither the
    pdt nor the pdpt is freed. *)
Theorem release_after_hold_faults :
  Bench.held = Ok (true, Bench.ctx_of Bench.held, Bench.world_of Bench.held) /\
  allocs_of (trace (Bench.world_of Bench.held))
    = [pdpt (Bench.ctx_of Bench.held); pdt (Bench.ctx_of Bench.held);
       pt (Bench.ctx_of Bench.held)] /\
  Bench.leaf_released
    = Ok (true, Bench.ctx_of Bench.leaf_released, Bench.world_of Bench.leaf_released) /\
  pt (Bench.ctx_of Bench.leaf_released) = 0 /\
  trace (Bench.world_of Bench.leaf_released)
    = trace (Bench.world_of Bench.held)
      ++ [EvScan (pt (Bench.ctx_of Bench.held));
          EvQueue (entry_addr (pdt (Bench.ctx_of Bench.held)) (pdt_index Bench.va)) 0;
          EvFlush;
          EvFree (pt (Bench.ctx_of Bench.held))] /\
  frees_of (trace (Bench.world_of Bench.leaf_released))
    = [pt (Bench.ctx_of Bench.held)] /\
  Bench.release_pdt Bench.va (Bench.ctx_of Bench.leaf_released)
    (Bench.world_of Bench.leaf_released) = Fault /\
  Bench.release (Some Bench.pm) (Some (Bench.ctx_of Bench.held)) Bench.va
    (Bench.world_of Bench.held) = Fault.
Proof.
  repeat split; vm_compute; reflexivity.
Qed.

(** C2 on a walk without leaf table. An inspect has stopped at the
    leaf: the pdt reference is present, the leaf reference absent. In the
    release that follows, the pdt is not self-mapped and every entry of
    the pdt is zero; the pdt block does not scan the pdt: it tests
    [pti->pt], a null pointer, and the call faults. *)
Theorem release_pdt_block_tests_leaf :
  Bench.leafless
    = Ok (false, Bench.ctx_of Bench.leafless, Bench.world_of Bench.leafless) /\
  pdt (Bench.ctx_of Bench.leafless) = 0x3000 /\
  pt (Bench.ctx_of Bench.leafless) = 0 /\
  atop (pdt (Bench.ctx_of Bench.leafless)) <> atop Bench.va /\
  find (fun a => negb (peek Bench.ident (mem (Bench.world_of Bench.leafless)) a =? 0))
    (page_slots (pdt (Bench.ctx_of Bench.leafless))) = None /\
  Bench.release_pt Bench.va (Bench.ctx_of Bench.leafless) (Bench.world_of Bench.leafless)
    = Ok (true, Bench.ctx_of Bench.leafless,
          with_trace
            (trace (Bench.world_of Bench.leafless)
             ++ [EvRead (entry_addr 0x3000 (pdt_index Bench.va)) 0])
            (Bench.world_of Bench.leafless)) /\
  Bench.release (Some Bench.pm) (Some (Bench.ctx_of Bench.leafless)) Bench.va
    (Bench.world_of Bench.leafless) = Fault.
Proof.
  split; [vm_compute; reflexivity|]. split; [vm_compute; reflexivity|].
  split; [vm_compute; reflexivity|]. split; [vm_compute; discriminate|].
  repeat split; vm_compute; reflexivity.
Qed.

(** * Further properties of the code *)

(** ** The index helpers as a decomposition of the address *)

Lemma index_helpers_div_mod va :
  pml4t_index va = va mod 2 ^ 48 / 2 ^ 39 /\
  pdpt_index va = va mod 2 ^ 39 / 2 ^ 30 /\
  pdt_index va = va mod 2 ^ 30 / 2 ^ 21.
Proof.
  unfold pml4t_index, pdpt_index, pdt_index, SIGNMASK, PML4MASK, PDPMASK,
    NBPML4, NBPDP, PML4SHIFT, PDPSHIFT, PDRSHIFT.
  rewrite !land_low_bits by lia. rewrite !Z.shiftr_div_pow2 by lia.
  repeat split; reflexivity.
Qed.

(** X1. The three index helpers cut the low 48 bits of an address into
    its fields: the address modulo 2^48 is the top-level index times 2^39,
    plus the level-3 index times 2^30, plus the level-2 index times 2^21,
    plus the low 21 bits. *)
Theorem index_helpers_decompose (va : Z) :
  va mod 2 ^ 48
  = pml4t_index va * 2 ^ 39 + pdpt_index va * 2 ^ 30
    + pdt_index va * 2 ^ 21 + va mod 2 ^ 21.
Proof.
  destruct (index_helpers_div_mod va) as (-> & -> & ->).
  change (2 ^ 48) with 281474976710656. change (2 ^ 39) with 549755813888.
  change (2 ^ 30) with 1073741824. change (2 ^ 21) with 2097152.
  Z.div_mod_to_equations. lia.
Qed.

(** X2. Conversely the helpers read back the fields an address was built
    from: for indices below 512 and an offset below 2^21, the address
    [i4 * 2^39 + i3 * 2^30 + i2 * 2^21 + off], with any sign extension
    [hi * 2^48] added, has indices [i4], [i3] and [i2]. *)
Theorem index_helpers_read_back (i4 i3 i2 off hi : Z) :
  0 <= i4 < 512 -> 0 <= i3 < 512 -> 0 <= i2 < 512 -> 0 <= off < 2 ^ 21 ->
  let va := hi * 2 ^ 48 + i4 * 2 ^ 39 + i3 * 2 ^ 30 + i2 * 2 ^ 21 + off in
  pml4t_index va = i4 /\ pdpt_index va = i3 /\ pdt_index va = i2.
Proof.
  intros H4 H3 H2 Ho va.
  destruct (index_helpers_div_mod va) as (-> & -> & ->). subst va.
  change (2 ^ 48) with 281474976710656 in *.
  change (2 ^ 39) with 549755813888 in *.
  change (2 ^ 30) with 1073741824 in *. change (2 ^ 21) with 2097152 in *.
  repeat split; Z.div_mod_to_equations; lia.
Qed.

Lemma index_helpers_read_back_witness :
  pml4t_index Bench.va = 32 /\ pdpt_index Bench.va = 0 /\ pdt_index Bench.va = 256.
Proof.
  apply (index_helpers_read_back 32 0 256 0x3000 0); lia.
Defined.

(** ** The life cycle of a context *)

Section LifeCycle.

Context {B : Type}.
Variable xpmap_ptom : Z -> Z.
Variable xpmap_mtop : Z -> Z.
Variable VM_MAX_KERNEL_ADDRESS : Z.
Variable vtomach : Z -> Z.

Implicit Types (s : mmu_map_index B) (m : mmu_map_mbackend B) (w : world B).

Local Abbreviation inspect :=
  (mmu_map_inspect_va xpmap_mtop VM_MAX_KERNEL_ADDRESS vtomach).
Local Abbreviation hold :=
  (mmu_map_hold_va xpmap_ptom xpmap_mtop VM_MAX_KERNEL_ADDRESS vtomach).
Local Abbreviation release := (mmu_map_release_va xpmap_ptom vtomach).

Lemma init_ok_inv s m s1 :
  mmu_map_t_init (Some s) (Some m) = Ok s1 ->
  sanity s <> SANE /\ s1 = set_sanity SANE (set_ptmb m s) /\
  non_null (alloc m) = true /\ non_null (ptov m) = true /\
  non_null (vtop m) = true.
Proof.
  simpl. destruct (sanity s =? SANE) eqn:Es; [discriminate|].
  apply Z.eqb_neq in Es.
  destruct (non_null (alloc m)), (non_null (ptov m)), (non_null (vtop m));
    simpl; try discriminate.
  intros [= <-]. auto.
Qed.

(** X3. Initialise, finalise, initialise again: on a context that init
    accepted, a second init panics (whatever backend it is given), fini
    succeeds, clears the tag and keeps the four references and the
    contract; on the finalised context fini panics and init with the same
    backend succeeds again, giving back the initialised context. *)
Theorem init_fini_cycle s m s1 :
  mmu_map_t_init (Some s) (Some m) = Ok s1 ->
  (forall mb', mmu_map_t_init (Some s1) mb' = Panic) /\
  exists s2,
    mmu_map_t_fini (Some s1) = Ok s2 /\
    sanity s2 = 0 /\ ptmb s2 = m /\
    pml4t s2 = pml4t s /\ pdpt s2 = pdpt s /\ pdt s2 = pdt s /\ pt s2 = pt s /\
    mmu_map_t_fini (Some s2) = Panic /\
    mmu_map_t_init (Some s2) (Some m) = Ok s1.
Proof.
  intros Hinit. destruct (init_ok_inv _ _ _ Hinit) as (Hs & -> & Ha & Hp & Hv).
  split.
  - intros [mb'|]; reflexivity.
  - eexists. split; [reflexivity|]. cbn.
    repeat (split; [reflexivity|]).
    rewrite Ha, Hp, Hv. reflexivity.
Qed.

(** A context whose tag is not set is refused everywhere. *)
Lemma untagged_context_refused s (pm : option pmap) va w :
  sanity s <> SANE ->
  inspect pm (Some s) va w = Panic /\
  hold pm (Some s) va w = Panic /\
  release pm (Some s) va w = Panic /\
  mmu_map_pml4t (Some s) = Panic /\ mmu_map_pdpt (Some s) = Panic /\
  mmu_map_pdt (Some s) = Panic /\ mmu_map_pt (Some s) = Panic.
Proof.
  intros Hs. apply Z.eqb_neq in Hs.
  unfold mmu_map_inspect_va, mmu_map_hold_va, mmu_map_release_va, enter,
    mmu_map_pml4t, mmu_map_pdpt, mmu_map_pdt, mmu_map_pt, accessor.
  rewrite !bind_get, Hs, !bind_kassert_false.
  destruct pm; repeat split; reflexivity.
Qed.

(** X4. Use after finalisation: once fini has returned, the three
    hierarchy operations and the four accessors panic on the finalised
    context, whatever the pmap, the address and the world. *)
Theorem use_after_fini_panics s1 s2 (pm : option pmap) va w :
  mmu_map_t_fini (Some s1) = Ok s2 ->
  inspect pm (Some s2) va w = Panic /\
  hold pm (Some s2) va w = Panic /\
  release pm (Some s2) va w = Panic /\
  mmu_map_pml4t (Some s2) = Panic /\ mmu_map_pdpt (Some s2) = Panic /\
  mmu_map_pdt (Some s2) = Panic /\ mmu_map_pt (Some s2) = Panic.
Proof.
  simpl. destruct (sanity s1 =? SANE); [|discriminate].
  intros [= <-]. apply untagged_context_refused. cbn. discriminate.
Qed.

(** X16. Refused arguments: each of the three operations panics on a
    null pmap, on a null context pointer and on a pmap whose root is null;
    inspect and hold also panic on an address above
    [VM_MAX_KERNEL_ADDRESS] (release makes no such test).  This holds
    whatever the context and the world hold. *)
Theorem bad_arguments_panic (pm : option pmap)
    (addr : option (mmu_map_index B)) va w :
  (pm = None \/ addr = None \/ (exists p, pm = Some p /\ pm_pml4 p = 0) ->
   inspect pm addr va w = Panic /\
   hold pm addr va w = Panic /\
   release pm addr va w = Panic) /\
  (VM_MAX_KERNEL_ADDRESS < va ->
   inspect pm addr va w = Panic /\ hold pm addr va w = Panic).
Proof.
  unfold mmu_map_inspect_va, mmu_map_hold_va, mmu_map_release_va, enter,
    inspect_body, hold_body, release_body, pmap_get_pml4t, pmap_get_pdpt.
  split.
  - intros [->|[->|(p & -> & Hp)]].
    + destruct addr; repeat split; reflexivity.
    + repeat split; reflexivity.
    + destruct addr as [i|]; [|repeat split; reflexivity].
      rewrite !bind_get.
      destruct (sanity i =? SANE); [|repeat split; reflexivity].
      rewrite !bind_kassert_true, !bind_assoc, Hp.
      repeat split; reflexivity.
  - intros Hva. apply Z.leb_gt in Hva.
    destruct addr as [i|], pm as [p|]; try (split; reflexivity).
    rewrite !bind_get.
    destruct (sanity i =? SANE); [|split; reflexivity].
    rewrite !bind_kassert_true, !bind_assoc.
    destruct (pm_pml4 p =? 0); [split; reflexivity|]. cbn [negb].
    rewrite !bind_kassert_true, !bind_ret, !bind_put, !bind_get, !bind_assoc.
    rewrite Hva. split; reflexivity.
Qed.

End LifeCycle.

Lemma init_fini_cycle_witness :
  exists s2,
    mmu_map_t_fini (Some Bench.ctx0) = Ok s2 /\
    mmu_map_t_init (Some s2) (Some Bench.mb) = Ok Bench.ctx0.
Proof.
  destruct (init_fini_cycle Bench.zeroed Bench.mb Bench.ctx0) as (_ & s2 & H).
  - reflexivity.
  - exists s2. split; apply H.
Defined.

Lemma use_after_fini_panics_witness :
  Bench.hold (Some Bench.pm) (Some (set_sanity 0 Bench.ctx0)) Bench.va Bench.w0
  = Panic.
Proof.
  apply (use_after_fini_panics Bench.ident Bench.ident Bench.VM_MAX Bench.ident
           Bench.ctx0 (set_sanity 0 Bench.ctx0) (Some Bench.pm) Bench.va Bench.w0).
  reflexivity.
Defined.

(** ** More on inspect and hold *)

Section Walks.

Context {B : Type}.
Variable xpmap_ptom : Z -> Z.
Variable xpmap_mtop : Z -> Z.
Variable VM_MAX_KERNEL_ADDRESS : Z.
Variable vtomach : Z -> Z.
Variable al : B -> Z * B.
Variable pv vp : Z -> Z.

Implicit Types (i : mmu_map_index B) (w : world B).

Local Abbreviation inspect :=
  (mmu_map_inspect_va xpmap_mtop VM_MAX_KERNEL_ADDRESS vtomach).
Local Abbreviation hold :=
  (mmu_map_hold_va xpmap_ptom xpmap_mtop VM_MAX_KERNEL_ADDRESS vtomach).
Local Abbreviation step := (level_step xpmap_ptom xpmap_mtop vtomach al pv vp).
Local Abbreviation cb := (has_callbacks al pv vp).
Local Abbreviation rd := (peek vtomach).
Local Abbreviation res := (resolves_b xpmap_mtop).
Local Abbreviation next e := (pv (xpmap_mtop (Z.land e PG_FRAME))).

(** An inspect that returns was given an initialised context, an address
    within bounds and a non-null root. *)
Lemma inspect_ok_pre (p : pmap) i va w r :
  inspect (Some p) (Some i) va w = Ok r ->
  sanity i = SANE /\ va <= VM_MAX_KERNEL_ADDRESS /\ pm_pml4 p <> 0.
Proof.
  unfold mmu_map_inspect_va, enter, inspect_body, pmap_get_pml4t, pmap_get_pdpt.
  rewrite bind_get.
  destruct (sanity i =? SANE) eqn:Es; [|discriminate].
  rewrite bind_kassert_true, bind_assoc.
  destruct (pm_pml4 p =? 0) eqn:Er; [discriminate|]. cbn [negb].
  rewrite bind_kassert_true, bind_ret, bind_put, bind_get, !bind_assoc.
  destruct (va <=? VM_MAX_KERNEL_ADDRESS) eqn:Ev; [|discriminate].
  intros _. split; [now apply Z.eqb_eq|].
  split; [now apply Z.leb_le | now apply Z.eqb_neq].
Qed.

(** inspect as a function of the three governing entries. *)
Lemma inspect_run (p : pmap) i va w :
  sanity i = SANE ->
  ptov (ptmb i) = Some pv ->
  va <= VM_MAX_KERNEL_ADDRESS ->
  pm_pml4 p <> 0 ->
  let root := pm_pml4 p in
  let s4 := entry_addr root (pml4t_index va) in
  let e4 := rd (mem w) s4 in
  let t3 := next e4 in
  let s3 := entry_addr t3 (pdpt_index va) in
  let e3 := rd (mem w) s3 in
  let t2 := next e3 in
  let s2 := entry_addr t2 (pdt_index va) in
  let e2 := rd (mem w) s2 in
  let t1 := next e2 in
  let ctx a b c :=
    {| pml4t := root; pdpt := a; pdt := b; pt := c;
       ptmb := ptmb i; sanity := SANE |} in
  inspect (Some p) (Some i) va w =
    if res e4 then
      if t3 =? 0 then Panic
      else if res e3 then
        if t2 =? 0 then Panic
        else if res e2 then
          Ok (true, ctx t3 t2 t1,
              with_trace (trace w ++ [EvRead s4 e4; EvRead s3 e3; EvRead s2 e2]) w)
        else
          Ok (false, ctx t3 t2 (pt i),
              with_trace (trace w ++ [EvRead s4 e4; EvRead s3 e3; EvRead s2 e2]) w)
      else
        Ok (false, ctx t3 (pdt i) (pt i),
            with_trace (trace w ++ [EvRead s4 e4; EvRead s3 e3]) w)
    else
      Ok (false, ctx (pdpt i) (pdt i) (pt i),
          with_trace (trace w ++ [EvRead s4 e4]) w).
Proof.
  intros Hs Hpv Hva Hroot root s4 e4 t3 s3 e3 t2 s2 e2 t1 ctx.
  apply Z.leb_le in Hva. apply Z.eqb_neq in Hroot.
  unfold resolves_b, entry_valid.
  unfold mmu_map_inspect_va, inspect_body, pmap_get_pml4t, pmap_get_pdpt,
    pmap_get_pdt, pmap_get_pt.
  munfold. rewrite !Hva, Hs, Z.eqb_refl. cbn.
  repeat (rewrite Hroot; cbn). fold root s4 e4.
  unfold ctx, set_pml4t, set_pdpt, set_pdt, set_pt. cbn. rewrite Hs.
  destruct (Z.land e4 PG_V =? 0) eqn:V4; cbn.
  { rewrite Z.eqb_refl. reflexivity. }
  destruct (xpmap_mtop (Z.land e4 PG_FRAME) =? 0) eqn:F4; cbn; [reflexivity|].
  rewrite Hpv. cbn. fold t3.
  destruct (t3 =? 0) eqn:N3; cbn; [reflexivity|].
  repeat (rewrite N3; cbn). fold s3 e3.
  destruct (Z.land e3 PG_V =? 0) eqn:V3; cbn.
  { rewrite Z.eqb_refl, <- !app_assoc. reflexivity. }
  destruct (xpmap_mtop (Z.land e3 PG_FRAME) =? 0) eqn:F3; cbn;
    [rewrite <- !app_assoc; reflexivity|].
  rewrite Hpv. cbn. fold t2.
  destruct (t2 =? 0) eqn:N2; cbn; [reflexivity|].
  repeat (rewrite N2; cbn). fold s2 e2.
  destruct (Z.land e2 PG_V =? 0) eqn:V2; cbn.
  { rewrite Z.eqb_refl, <- !app_assoc. reflexivity. }
  destruct (xpmap_mtop (Z.land e2 PG_FRAME) =? 0) eqn:F2; cbn;
    [rewrite <- !app_assoc; reflexivity|].
  rewrite Hpv. cbn. fold t1. rewrite <- !app_assoc. reflexivity.
Qed.

(** X5. A walk that stops leaves the deeper references alone: when
    inspect returns false, the root reference is the pmap's root, the leaf
    reference is what it was before the call, and so are the pdt reference
    when the walk stopped at the first or second entry and the pdpt
    reference when it stopped at the first; the references above the stop
    are those of the walk. *)
Theorem inspect_false_keeps_deeper (p : pmap) i va w i' w' :
  ptov (ptmb i) = Some pv ->
  inspect (Some p) (Some i) va w = Ok (false, i', w') ->
  let e4 := rd (mem w) (entry_addr (pm_pml4 p) (pml4t_index va)) in
  let e3 := rd (mem w) (entry_addr (next e4) (pdpt_index va)) in
  pml4t i' = pm_pml4 p /\ pt i' = pt i /\
  (res e4 = false -> pdpt i' = pdpt i /\ pdt i' = pdt i) /\
  (res e4 = true ->
     pdpt i' = next e4 /\
     (res e3 = false -> pdt i' = pdt i) /\
     (res e3 = true -> pdt i' = next e3)).
Proof.
  intros Hpv Hrun e4 e3.
  destruct (inspect_ok_pre _ _ _ _ _ Hrun) as (Hs & Hva & Hroot).
  rewrite inspect_run in Hrun by assumption. cbv zeta in Hrun.
  fold e4 e3 in Hrun.
  destruct (res e4); [|injection Hrun as <- <-; cbn; repeat (first [split | intro]); congruence].
  destruct (next e4 =? 0); [discriminate|].
  destruct (res e3); [|injection Hrun as <- <-; cbn; repeat (first [split | intro]); congruence].
  destruct (next e3 =? 0); [discriminate|].
  destruct (res _); [discriminate|].
  injection Hrun as <- <-. cbn. repeat (first [split | intro]); congruence.
Qed.

(** X6. inspect is idempotent: run again on the context and world it
    returned, it returns the same answer, leaves the context as it is and
    records reads only. *)
Theorem inspect_idempotent (p : pmap) i va w found i' w' :
  ptov (ptmb i) = Some pv ->
  inspect (Some p) (Some i) va w = Ok (found, i', w') ->
  exists reads,
    inspect (Some p) (Some i') va w'
    = Ok (found, i', with_trace (trace w' ++ reads) w') /\
    forallb is_read reads = true.
Proof.
  intros Hpv Hrun.
  destruct (inspect_ok_pre _ _ _ _ _ Hrun) as (Hs & Hva & Hroot).
  rewrite inspect_run in Hrun by assumption. cbv zeta in Hrun.
  destruct (res _) eqn:R4.
  - destruct (_ =? 0) eqn:N3 in Hrun; [discriminate|].
    destruct (res _) eqn:R3 in Hrun.
    + destruct (_ =? 0) eqn:N2 in Hrun; [discriminate|].
      destruct (res _) eqn:R2 in Hrun; injection Hrun as <- <- <-;
        eexists; (split; [|shelve]);
        rewrite inspect_run by (cbn; first [assumption | reflexivity]); cbv zeta; cbn;
        rewrite R4, N3, R3, N2, R2; reflexivity.
    + injection Hrun as <- <- <-. eexists. split; [|shelve].
      rewrite inspect_run by (cbn; first [assumption | reflexivity]). cbv zeta. cbn.
      rewrite R4, N3, R3. reflexivity.
  - injection Hrun as <- <- <-. eexists. split; [|shelve].
    rewrite inspect_run by (cbn; first [assumption | reflexivity]). cbv zeta. cbn.
    rewrite R4. reflexivity.
  Unshelve. all: reflexivity.
Qed.

(** X7. hold and inspect agree on what is there: from the same context
    and world (allocator never returning null, ptov mapping no non-zero
    address to null), hold returns false exactly when inspect returns
    true, and then both leave the same context and the same world: a hold
    on a fully resolved walk is an inspect. *)
Theorem hold_false_iff_inspect_true (p : pmap) i va w :
  sanity i = SANE ->
  cb i ->
  va <= VM_MAX_KERNEL_ADDRESS ->
  pm_pml4 p <> 0 ->
  (forall b, (al b).1 <> 0) ->
  (forall x, x <> 0 -> pv x <> 0) ->
  exists found ii wi alloced ih wh,
    inspect (Some p) (Some i) va w = Ok (found, ii, wi) /\
    hold (Some p) (Some i) va w = Ok (alloced, ih, wh) /\
    alloced = negb found /\
    (found = true -> ih = ii /\ wh = wi).
Proof.
  intros Hs Hcb Hva Hroot Hal Hnz.
  pose proof Hcb as (_ & Hpv & _).
  rewrite inspect_run by assumption.
  rewrite (hold_run _ _ _ _ al pv vp) by assumption. cbv zeta.
  destruct (step (pm_pml4 p) (pml4t_index va) w) as [[t3 a4] w4] eqn:S4.
  destruct (step_spec _ _ _ _ _ _ _ _ _ _ _ _ S4 Hal Hnz) as (_ & _ & N4).
  apply Z.eqb_neq in N4. rewrite N4.
  destruct (step t3 (pdpt_index va) w4) as [[t2 a3] w3] eqn:S3.
  destruct (step_spec _ _ _ _ _ _ _ _ _ _ _ _ S3 Hal Hnz) as (_ & _ & N3).
  apply Z.eqb_neq in N3. rewrite N3.
  destruct (step t2 (pdt_index va) w3) as [[t1 a2] w2] eqn:S2.
  unfold level_step in S4.
  destruct (res (rd (mem w) (entry_addr (pm_pml4 p) (pml4t_index va)))) eqn:R4.
  2:{ destruct (al (backend w)) as [t b]. injection S4 as <- <- <-.
      do 6 eexists. split; [reflexivity|]. split; [reflexivity|].
      split; [destruct a2, a3; reflexivity | discriminate]. }
  injection S4 as <- <- <-. rewrite N4.
  unfold level_step in S3. cbn [mem with_trace] in S3.
  destruct (res (rd (mem w) (entry_addr _ (pdpt_index va)))) eqn:R3.
  2:{ destruct (al _) as [t b]. injection S3 as <- <- <-.
      do 6 eexists. split; [reflexivity|]. split; [reflexivity|].
      split; [destruct a2; reflexivity | discriminate]. }
  injection S3 as <- <- <-. rewrite N3.
  unfold level_step in S2. cbn [mem with_trace] in S2.
  destruct (res (rd (mem w) (entry_addr _ (pdt_index va)))) eqn:R2.
  2:{ destruct (al _) as [t b]. injection S2 as <- <- <-.
      do 6 eexists. split; [reflexivity|]. split; [reflexivity|].
      split; [reflexivity | discriminate]. }
  injection S2 as <- <- <-.
  do 6 eexists. split; [reflexivity|]. split; [reflexivity|].
  split; [reflexivity|]. intros _. split; [reflexivity|].
  unfold with_trace, level_events. cbn. rewrite <- !app_assoc. reflexivity.
Qed.

(** What one level step leaves alone. *)
Lemma step_untouched tbl idx w t a w' :
  step tbl idx w = (t, a, w') ->
  queue w = [] ->
  queue w' = [] /\
  frees_of (trace w') = frees_of (trace w) /\
  (forall m, m <> xpmap_ptom (vp (entry_addr tbl idx)) ->
             mem w' !! m = mem w !! m) /\
  (a = false -> mem w' = mem w /\ backend w' = backend w).
Proof.
  unfold level_step. intros Hstep Hq.
  destruct (res _).
  - injection Hstep as <- <- <-. cbn. unfold frees_of.
    rewrite omap_app, app_nil_r. auto.
  - destruct (al (backend w)) as [t' b]. injection Hstep as <- <- <-.
    cbn. unfold frees_of. rewrite omap_app, app_nil_r, Hq.
    split; [reflexivity|]. split; [reflexivity|].
    split; [|discriminate].
    intros m Hm. unfold apply_updates. cbn [app foldl fst snd].
    now rewrite lookup_insert_ne by congruence.
Qed.

(** X8. What hold leaves alone. A hold that returns, started with no
    update pending, leaves none pending and calls free never; it changes
    no word of memory other than the three governing entries of the
    address (the words at the machine addresses vtop and xpmap_ptom give
    for the entry slots); and when it returns false it has changed neither
    memory nor the allocator. *)
Theorem hold_changes_governing_entries_only (p : pmap) i va w a1 i1 w1 :
  cb i ->
  queue w = [] ->
  hold (Some p) (Some i) va w = Ok (a1, i1, w1) ->
  let s4 := entry_addr (pml4t i1) (pml4t_index va) in
  let s3 := entry_addr (pdpt i1) (pdpt_index va) in
  let s2 := entry_addr (pdt i1) (pdt_index va) in
  queue w1 = [] /\
  frees_of (trace w1) = frees_of (trace w) /\
  (forall m,
     m <> xpmap_ptom (vp s4) -> m <> xpmap_ptom (vp s3) ->
     m <> xpmap_ptom (vp s2) ->
     mem w1 !! m = mem w !! m) /\
  (a1 = false -> mem w1 = mem w /\ backend w1 = backend w).
Proof.
  intros Hcb Hq Hhold.
  destruct (hold_ok_pre _ _ _ _ _ _ _ _ _ Hhold) as (Hs & Hva & Hroot).
  rewrite (hold_run _ _ _ _ al pv vp) in Hhold by assumption.
  destruct (step (pm_pml4 p) (pml4t_index va) w) as [[t3 a4] w4] eqn:S4.
  destruct (t3 =? 0); [discriminate|].
  destruct (step t3 (pdpt_index va) w4) as [[t2 a3] w3] eqn:S3.
  destruct (t2 =? 0); [discriminate|].
  destruct (step t2 (pdt_index va) w3) as [[t1 a2] w2] eqn:S2.
  injection Hhold as <- <- <-. intros s4 s3 s2. cbn in s4, s3, s2.
  destruct (step_untouched _ _ _ _ _ _ S4 Hq) as (Q4 & F4 & M4 & U4).
  destruct (step_untouched _ _ _ _ _ _ S3 Q4) as (Q3 & F3 & M3 & U3).
  destruct (step_untouched _ _ _ _ _ _ S2 Q3) as (Q2 & F2 & M2 & U2).
  split; [exact Q2|]. split; [congruence|]. split.
  - intros m H4 H3 H2. rewrite M2, M3, M4 by assumption. reflexivity.
  - intros Ha. destruct a2, a3, a4; try discriminate.
    destruct (U4 eq_refl), (U3 eq_refl), (U2 eq_refl). split; congruence.
Qed.

(** A level step on an entry that does not resolve, with no update
    pending. *)
Lemma step_alloc tbl idx w :
  res (rd (mem w) (entry_addr tbl idx)) = false ->
  queue w = [] ->
  step tbl idx w
  = ((al (backend w)).1, true,
     {| mem := <[xpmap_ptom (vp (entry_addr tbl idx))
                 := new_entry (xpmap_ptom (vp (al (backend w)).1))]> (mem w);
        queue := [];
        backend := (al (backend w)).2;
        trace := trace w
                 ++ level_events xpmap_ptom vp (entry_addr tbl idx)
                      (rd (mem w) (entry_addr tbl idx))
                      (Some (al (backend w)).1) |}).
Proof.
  intros Hres Hq. unfold level_step. rewrite Hres, Hq.
  destruct (al (backend w)) as [t b]. reflexivity.
Qed.

Lemma resolves_zero : res 0 = false.
Proof. reflexivity. Qed.

(** X13. hold where nothing is mapped: when the root entry of the address
    does not resolve, no update is pending, the allocator hands out three
    non-null pages whose governing entries read zero, and these entries
    are other machine words than the parent entries being written, hold
    allocates the pdpt, the pdt and the leaf table in this order, links
    each into its parent with one flushed update, and returns true with
    the three pages as references. *)
Theorem hold_unmapped_allocates_three (p : pmap) i va w :
  sanity i = SANE ->
  cb i ->
  va <= VM_MAX_KERNEL_ADDRESS ->
  pm_pml4 p <> 0 ->
  queue w = [] ->
  let s4 := entry_addr (pm_pml4 p) (pml4t_index va) in
  let e4 := rd (mem w) s4 in
  let t3 := (al (backend w)).1 in
  let t2 := (al (al (backend w)).2).1 in
  let t1 := (al (al (al (backend w)).2).2).1 in
  let s3 := entry_addr t3 (pdpt_index va) in
  let s2 := entry_addr t2 (pdt_index va) in
  let m4 := xpmap_ptom (vp s4) in
  let m3 := xpmap_ptom (vp s3) in
  let m2 := xpmap_ptom (vp s2) in
  res e4 = false ->
  t3 <> 0 -> t2 <> 0 ->
  rd (mem w) s3 = 0 -> rd (mem w) s2 = 0 ->
  vtomach s3 <> m4 -> vtomach s2 <> m4 -> vtomach s2 <> m3 ->
  hold (Some p) (Some i) va w
  = Ok (true,
        {| pml4t := pm_pml4 p; pdpt := t3; pdt := t2; pt := t1;
           ptmb := ptmb i; sanity := SANE |},
        {| mem := <[m2 := new_entry (xpmap_ptom (vp t1))]>
                    (<[m3 := new_entry (xpmap_ptom (vp t2))]>
                       (<[m4 := new_entry (xpmap_ptom (vp t3))]> (mem w)));
           queue := [];
           backend := (al (al (al (backend w)).2).2).2;
           trace := trace w
                    ++ level_events xpmap_ptom vp s4 e4 (Some t3)
                    ++ level_events xpmap_ptom vp s3 0 (Some t2)
                    ++ level_events xpmap_ptom vp s2 0 (Some t1) |}).
Proof.
  intros Hs Hcb Hva Hroot Hq s4 e4 t3 t2 t1 s3 s2 m4 m3 m2
    R4 N3 N2 Z3 Z2 D34 D24 D23.
  rewrite (hold_run _ _ _ _ al pv vp) by assumption.
  rewrite (step_alloc _ _ _ R4 Hq). fold s4 e4 t3 m4.
  apply Z.eqb_neq in N3, N2. rewrite N3.
  rewrite step_alloc; cbn [mem queue backend trace]; fold s3;
    [|unfold peek; rewrite lookup_insert_ne by congruence;
      fold (rd (mem w) s3); rewrite Z3; reflexivity
     |reflexivity].
  fold t2 m3. rewrite N2.
  rewrite step_alloc; cbn [mem queue backend trace]; fold s2;
    [|unfold peek; rewrite !lookup_insert_ne by congruence;
      fold (rd (mem w) s2); rewrite Z2; reflexivity
     |reflexivity].
  fold t1 m2.
  assert (E3 : rd (<[m4:=new_entry (xpmap_ptom (vp t3))]> (mem w)) s3 = 0).
  { unfold peek. rewrite lookup_insert_ne by congruence. exact Z3. }
  assert (E2 : rd (<[m3:=new_entry (xpmap_ptom (vp t2))]>
                     (<[m4:=new_entry (xpmap_ptom (vp t3))]> (mem w))) s2 = 0).
  { unfold peek. rewrite !lookup_insert_ne by congruence. exact Z2. }
  rewrite E3, E2, <- !app_assoc. reflexivity.
Qed.

(** X14. inspect and hold look at the address through its three indices
    only: two addresses with the same indices, both within or both
    beyond [VM_MAX_KERNEL_ADDRESS], give the same outcome, on any pmap,
    context and world. *)
Theorem walk_depends_on_indices (pm : option pmap)
    (addr : option (mmu_map_index B)) va va' w :
  (va <=? VM_MAX_KERNEL_ADDRESS) = (va' <=? VM_MAX_KERNEL_ADDRESS) ->
  pml4t_index va = pml4t_index va' ->
  pdpt_index va = pdpt_index va' ->
  pdt_index va = pdt_index va' ->
  inspect pm addr va w = inspect pm addr va' w /\
  hold pm addr va w = hold pm addr va' w.
Proof.
  intros Hb H4 H3 H2.
  unfold mmu_map_inspect_va, mmu_map_hold_va, inspect_body, hold_body,
    pmap_get_pdpt, pmap_get_pdt, pmap_get_pt.
  rewrite Hb, H4, H3, H2. split; reflexivity.
Qed.

(** inspect looks at memory only: on two worlds with the same memory it
    gives the same answer and the same context. *)
Lemma inspect_mem_only (p : pmap) j va w w' found j' wj :
  ptov (ptmb j) = Some pv ->
  mem w' = mem w ->
  inspect (Some p) (Some j) va w = Ok (found, j', wj) ->
  exists wj', inspect (Some p) (Some j) va w' = Ok (found, j', wj').
Proof.
  intros Hpv Hm Hrun.
  destruct (inspect_ok_pre _ _ _ _ _ Hrun) as (Hs & Hva & Hroot).
  rewrite inspect_run in Hrun |- * by assumption. cbv zeta in *.
  rewrite Hm.
  destruct (res _); [|injection Hrun as <- <- _; eauto].
  destruct (_ =? 0); [discriminate|].
  destruct (res _); [|injection Hrun as <- <- _; eauto].
  destruct (_ =? 0); [discriminate|].
  destruct (res _); injection Hrun as <- <- _; eauto.
Qed.

(** X9. The accessors after a walk: when hold has returned, or inspect
    has returned true, the context is still initialised with the same
    contract, the four accessors return its four references, the root
    reference is the pmap's root and the pdpt and pdt references are not
    null. *)
Theorem accessors_after_walk (p : pmap) i va w r i1 w1 :
  (cb i /\ hold (Some p) (Some i) va w = Ok (r, i1, w1)) \/
  (ptov (ptmb i) = Some pv /\ inspect (Some p) (Some i) va w = Ok (true, i1, w1)) ->
  ptmb i1 = ptmb i /\
  mmu_map_pml4t (Some i1) = Ok (pm_pml4 p) /\
  mmu_map_pdpt (Some i1) = Ok (pdpt i1) /\ pdpt i1 <> 0 /\
  mmu_map_pdt (Some i1) = Ok (pdt i1) /\ pdt i1 <> 0 /\
  mmu_map_pt (Some i1) = Ok (pt i1).
Proof.
  intros [[Hcb Hrun]|[Hpv Hrun]].
  - destruct (hold_ok_pre _ _ _ _ _ _ _ _ _ Hrun) as (Hs & Hva & Hroot).
    rewrite (hold_run _ _ _ _ al pv vp) in Hrun by assumption.
    destruct (step _ _ w) as [[t3 a4] w4].
    destruct (t3 =? 0) eqn:N3; [discriminate|].
    destruct (step _ _ w4) as [[t2 a3] w3].
    destruct (t2 =? 0) eqn:N2; [discriminate|].
    destruct (step _ _ w3) as [[t1 a2] w2].
    injection Hrun as <- <- <-. apply Z.eqb_neq in N3, N2.
    unfold mmu_map_pml4t, mmu_map_pdpt, mmu_map_pdt, mmu_map_pt, accessor.
    cbn. change (SANE =? SANE) with true.
    repeat split; first [assumption | reflexivity].
  - destruct (inspect_ok_pre _ _ _ _ _ Hrun) as (Hs & Hva & Hroot).
    rewrite inspect_run in Hrun by assumption. cbv zeta in Hrun.
    destruct (res _); [|discriminate].
    match type of Hrun with (if ?c =? 0 then _ else _) = _ =>
      destruct (c =? 0) eqn:N3; [discriminate|] end.
    destruct (res _); [|discriminate].
    match type of Hrun with (if ?c =? 0 then _ else _) = _ =>
      destruct (c =? 0) eqn:N2; [discriminate|] end.
    destruct (res _); [|discriminate].
    injection Hrun as <- <-. apply Z.eqb_neq in N3, N2.
    unfold mmu_map_pml4t, mmu_map_pdpt, mmu_map_pdt, mmu_map_pt, accessor.
    cbn. change (SANE =? SANE) with true.
    repeat split; first [assumption | reflexivity].
Qed.

End Walks.

(** ** More on release *)

Section ReleaseCases.

Context {B : Type}.
Variable xpmap_ptom : Z -> Z.
Variable xpmap_mtop : Z -> Z.
Variable VM_MAX_KERNEL_ADDRESS : Z.
Variable vtomach : Z -> Z.

Implicit Types (i : mmu_map_index B) (w : world B).

Local Abbreviation release := (mmu_map_release_va xpmap_ptom vtomach).
Local Abbreviation inspect :=
  (mmu_map_inspect_va xpmap_mtop VM_MAX_KERNEL_ADDRESS vtomach).
Local Abbreviation rel_pt := (release_pt xpmap_ptom vtomach).
Local Abbreviation rel_pdt := (release_pdt xpmap_ptom vtomach).
Local Abbreviation rel_pdpt := (release_pdpt xpmap_ptom vtomach).
Local Abbreviation rd := (peek vtomach).
Local Abbreviation live := (page_live vtomach).

(** X10. Releasing an address whose leaf table still holds a mapping
    changes nothing: with the three references present, the leaf table
    not self-mapped and some entry of it not zero, release returns having
    only scanned the leaf table (once per block it reached); memory, the
    update queue, the allocator and the pdpt, pdt and leaf references are
    as before, so an inspect of any address gives afterwards what it gave
    before. *)
Theorem release_live_leaf_is_noop (p : pmap) i va w :
  sanity i = SANE ->
  pm_pml4 p <> 0 ->
  pdpt i <> 0 -> pdt i <> 0 -> pt i <> 0 ->
  atop (pt i) <> atop va ->
  live (mem w) (pt i) ->
  let scans :=
    EvScan (pt i) ::
    (if atop (pdt i) =? atop va then []
     else EvScan (pt i) ::
          (if atop (pdpt i) =? atop va then [] else [EvScan (pt i)])) in
  let w' := with_trace (trace w ++ scans) w in
  release (Some p) (Some i) va w = Ok (tt, set_pml4t (pm_pml4 p) i, w') /\
  (forall pv (q : pmap) j va2 found j' wj,
     ptov (ptmb j) = Some pv ->
     inspect (Some q) (Some j) va2 w = Ok (found, j', wj) ->
     exists wj', inspect (Some q) (Some j) va2 w' = Ok (found, j', wj')).
Proof.
  intros Hs Hroot H3 H2 H1 Hself Hlive scans w'. subst w' scans.
  split; [|intros pv q j va2 found j' wj Hpv Hrun;
           now apply (inspect_mem_only _ _ _ pv q j va2 w _ found j' wj)].
  rewrite release_run by auto.
  pose proof Hroot as Hroot'.
  apply Z.eqb_neq in Hroot', H3, H2, H1, Hself. unfold page_live in Hlive.
  destruct (find (fun a => negb (rd (mem w) a =? 0)) (page_slots (pt i)))
    as [z|] eqn:Ef; [clear Hlive|contradiction].
  assert (R1 : rel_pt va (set_pml4t (pm_pml4 p) i) w
               = Ok (true, set_pml4t (pm_pml4 p) i,
                     with_trace (trace w ++ [EvScan (pt i)]) w)).
  { unfold release_pt. munfold. cbn. rewrite H2. cbn. rewrite H1, Hself.
    rewrite Ef. cbn. rewrite H3. reflexivity. }
  rewrite R1.
  unfold release_pdt. munfold. cbn. rewrite H3. cbn. rewrite H2. cbn.
  destruct (atop (pdt i) =? atop va); [reflexivity|]. cbn. rewrite H1.
  rewrite Ef. cbn. rewrite Hroot'. cbn.
  unfold release_pdpt. munfold. cbn. rewrite Hroot'. cbn. rewrite H3. cbn.
  destruct (atop (pdpt i) =? atop va); cbn;
    [rewrite <- !app_assoc; reflexivity|].
  rewrite H1, Ef. cbn. rewrite <- !app_assoc. reflexivity.
Qed.

(** X11. Releasing an address whose leaf table is empty: with the three
    references present and the leaf table not self-mapped and all zero,
    the leaf block scans the leaf table, queues a zero for the machine
    address of its pdt entry and flushes, then calls free on the leaf
    table when the backend has a free callback, and clears the leaf
    reference.  The call as a whole returns only if the pdt lies in the
    page of the address; otherwise the next block tests the leaf
    reference just cleared and the call faults. *)
Theorem release_empty_leaf (p : pmap) i va w (vp : Z -> Z) :
  sanity i = SANE ->
  pm_pml4 p <> 0 ->
  pdpt i <> 0 -> pdt i <> 0 -> pt i <> 0 ->
  atop (pt i) <> atop va ->
  ~ live (mem w) (pt i) ->
  vtop (ptmb i) = Some vp ->
  let slot_ma := xpmap_ptom (vp (entry_addr (pdt i) (pdt_index va))) in
  let i1 := set_pt 0 (set_pml4t (pm_pml4 p) i) in
  let w1 :=
    {| mem := apply_updates (queue w ++ [(slot_ma, 0)]) (mem w);
       queue := [];
       backend := match free (ptmb i) with
                  | Some f => f (pt i) (backend w)
                  | None => backend w
                  end;
       trace := trace w
                ++ [EvScan (pt i); EvQueue slot_ma 0; EvFlush]
                ++ match free (ptmb i) with
                   | Some _ => [EvFree (pt i)]
                   | None => []
                   end |} in
  rel_pt va (set_pml4t (pm_pml4 p) i) w = Ok (true, i1, w1) /\
  release (Some p) (Some i) va w
  = if atop (pdt i) =? atop va then Ok (tt, i1, w1) else Fault.
Proof.
  intros Hs Hroot H3 H2 H1 Hself Hdead Hvp slot_ma i1 w1.
  apply Z.eqb_neq in H3, H2, H1, Hself. unfold page_live in Hdead.
  destruct (find (fun a => negb (rd (mem w) a =? 0)) (page_slots (pt i)))
    as [z|] eqn:Ef; [exfalso; apply Hdead; discriminate|clear Hdead].
  assert (R1 : rel_pt va (set_pml4t (pm_pml4 p) i) w = Ok (true, i1, w1)).
  { unfold release_pt. munfold. cbn. rewrite H2. cbn. rewrite H1, Hself, Ef.
    cbn. rewrite Hvp. cbn. subst i1 w1 slot_ma.
    destruct (free (ptmb i)); cbn; rewrite H3; cbn;
      rewrite <- ?app_assoc; reflexivity. }
  split; [exact R1|].
  rewrite release_run; [|assumption..|intros _; now apply Z.eqb_neq].
  rewrite R1. unfold release_pdt. munfold. subst i1. cbn.
  rewrite H3. cbn. rewrite H2. cbn.
  destruct (atop (pdt i) =? atop va); reflexivity.
Qed.

(** X12. Releasing with a context that holds no table reference (as
    after init on zeroed storage): release reads the root entry of the
    address and panics if it is not zero; if it is zero, the call returns,
    with nothing done, only for an address in page 0, and faults for any
    other address, on the emptiness test of the null leaf reference. *)
Theorem release_without_references (p : pmap) i va w :
  sanity i = SANE ->
  pm_pml4 p <> 0 ->
  pdpt i = 0 -> pdt i = 0 -> pt i = 0 ->
  let slot := entry_addr (pm_pml4 p) (pml4t_index va) in
  let e := rd (mem w) slot in
  release (Some p) (Some i) va w
  = if e =? 0 then
      if atop 0 =? atop va then
        Ok (tt, set_pml4t (pm_pml4 p) i, with_trace (trace w ++ [EvRead slot e]) w)
      else Fault
    else Panic.
Proof.
  intros Hs Hroot H3 H2 H1 slot e.
  rewrite release_run; [|assumption..|intros Hc; now rewrite H1 in Hc].
  pose proof Hroot as Hroot'. apply Z.eqb_neq in Hroot'.
  unfold release_pt, release_pdt, release_pdpt. munfold. cbn.
  repeat (progress (rewrite ?H1, ?H2, ?H3, ?Hroot';
                    try change (0 =? 0) with true; cbn)).
  fold slot e.
  destruct (e =? 0); [|reflexivity]. cbn.
  destruct (atop 0 =? atop va); [reflexivity|]. cbn. rewrite H1.
  reflexivity.
Qed.

(** X15. The upper tables are never released: whenever release returns,
    the pdpt and pdt references of the context are what they were, and
    among the events of the call every free and every scan is of the leaf
    table the context referred to, and there is no allocation. *)
Theorem release_frees_leaf_only (p : pmap) i va w i' w' :
  sanity i = SANE ->
  pm_pml4 p <> 0 ->
  (pt i <> 0 -> pdt i <> 0) ->
  release (Some p) (Some i) va w = Ok (tt, i', w') ->
  pdpt i' = pdpt i /\ pdt i' = pdt i /\
  exists evs,
    trace w' = trace w ++ evs /\
    (forall q, In (EvFree q) evs -> q = pt i) /\
    (forall q, In (EvScan q) evs -> q = pt i) /\
    (forall q, ~ In (EvAlloc q) evs).
Proof.
  intros Hs Hroot Hpt Hrun.
  destruct (release_keeps_upper_tables _ _ _ _ _ _ _ _ Hs Hroot Hpt Hrun)
    as (H3 & H2 & evs & Ht & Hall).
  split; [exact H3|]. split; [exact H2|].
  exists evs. split; [exact Ht|].
  rewrite Forall_forall in Hall.
  repeat split; intros q Hin; apply list_elem_of_In, Hall in Hin; exact Hin.
Qed.

End ReleaseCases.

(** *** The further properties on the test bench *)

Lemma inspect_false_keeps_deeper_witness :
  pml4t (Bench.ctx_of Bench.leafless) = pm_pml4 Bench.pm /\
  pt (Bench.ctx_of Bench.leafless) = pt Bench.ctx0.
Proof.
  destruct (inspect_false_keeps_deeper Bench.ident Bench.VM_MAX Bench.ident
              Bench.ident Bench.pm Bench.ctx0 Bench.va Bench.w_leafless
              (Bench.ctx_of Bench.leafless) (Bench.world_of Bench.leafless))
    as (H4 & H1 & _).
  - reflexivity.
  - vm_compute. reflexivity.
  - split; [exact H4 | exact H1].
Defined.

Lemma inspect_idempotent_witness :
  exists reads,
    Bench.inspect (Some Bench.pm) (Some (Bench.ctx_of Bench.leafless)) Bench.va
      (Bench.world_of Bench.leafless)
    = Ok (false, Bench.ctx_of Bench.leafless,
          with_trace (trace (Bench.world_of Bench.leafless) ++ reads)
            (Bench.world_of Bench.leafless)) /\
    forallb is_read reads = true.
Proof.
  apply (inspect_idempotent Bench.ident Bench.VM_MAX Bench.ident Bench.ident
           Bench.pm Bench.ctx0 Bench.va Bench.w_leafless).
  - reflexivity.
  - vm_compute. reflexivity.
Defined.

Lemma hold_false_iff_inspect_true_witness :
  exists found ii wi alloced ih wh,
    Bench.inspect (Some Bench.pm) (Some Bench.ctx0) Bench.va Bench.w0
      = Ok (found, ii, wi) /\
    Bench.hold (Some Bench.pm) (Some Bench.ctx0) Bench.va Bench.w0
      = Ok (alloced, ih, wh) /\
    alloced = negb found.
Proof.
  destruct (hold_false_iff_inspect_true Bench.ident Bench.ident Bench.VM_MAX
              Bench.ident Bench.bump Bench.ident Bench.ident
              Bench.pm Bench.ctx0 Bench.va Bench.w0)
    as (found & ii & wi & alloced & ih & wh & H1 & H2 & H3 & _).
  - reflexivity.
  - repeat split; reflexivity.
  - unfold Bench.va, Bench.VM_MAX. lia.
  - cbn. lia.
  - intros n. unfold Bench.bump, Bench.page_addr. cbn [fst]. lia.
  - intros x Hx. exact Hx.
  - exists found, ii, wi, alloced, ih, wh. auto.
Defined.

Lemma hold_changes_governing_entries_only_witness :
  queue (Bench.world_of Bench.held) = [] /\
  frees_of (trace (Bench.world_of Bench.held)) = frees_of (trace Bench.w0).
Proof.
  destruct (hold_changes_governing_entries_only Bench.ident Bench.ident
              Bench.VM_MAX Bench.ident Bench.bump Bench.ident Bench.ident
              Bench.pm Bench.ctx0 Bench.va Bench.w0 true
              (Bench.ctx_of Bench.held) (Bench.world_of Bench.held))
    as (Hq & Hf & _).
  - repeat split; reflexivity.
  - reflexivity.
  - vm_compute. reflexivity.
  - split; [exact Hq | exact Hf].
Defined.

Lemma accessors_after_walk_witness :
  mmu_map_pml4t (Some (Bench.ctx_of Bench.held)) = Ok (pm_pml4 Bench.pm) /\
  pdpt (Bench.ctx_of Bench.held) <> 0 /\ pdt (Bench.ctx_of Bench.held) <> 0.
Proof.
  destruct (accessors_after_walk Bench.ident Bench.ident Bench.VM_MAX
              Bench.ident Bench.bump Bench.ident Bench.ident
              Bench.pm Bench.ctx0 Bench.va Bench.w0 true
              (Bench.ctx_of Bench.held) (Bench.world_of Bench.held))
    as (_ & H4 & _ & H3 & _ & H2 & _).
  - left. split; [repeat split; reflexivity | vm_compute; reflexivity].
  - auto.
Defined.

Lemma hold_unmapped_allocates_three_witness :
  exists i' w',
    Bench.hold (Some Bench.pm) (Some Bench.ctx0) Bench.va Bench.w0
      = Ok (true, i', w') /\
    (pdpt i', pdt i', pt i') = (0x100000, 0x101000, 0x102000).
Proof.
  eexists _, _. split.
  - apply (hold_unmapped_allocates_three Bench.ident Bench.ident Bench.VM_MAX
             Bench.ident Bench.bump Bench.ident Bench.ident
             Bench.pm Bench.ctx0 Bench.va Bench.w0).
    + reflexivity.
    + repeat split; reflexivity.
    + unfold Bench.va, Bench.VM_MAX. lia.
    + cbn. lia.
    + reflexivity.
    + vm_compute. reflexivity.
    + vm_compute. discriminate.
    + vm_compute. discriminate.
    + vm_compute. reflexivity.
    + vm_compute. reflexivity.
    + vm_compute. discriminate.
    + vm_compute. discriminate.
    + vm_compute. discriminate.
  - vm_compute. reflexivity.
Defined.

Lemma walk_depends_on_indices_witness :
  Bench.inspect (Some Bench.pm) (Some Bench.ctx0) Bench.va Bench.w_frame0
  = Bench.inspect (Some Bench.pm) (Some Bench.ctx0) (Bench.va + 0x1ff8) Bench.w_frame0.
Proof.
  apply (walk_depends_on_indices Bench.ident Bench.ident Bench.VM_MAX Bench.ident
           (Some Bench.pm) (Some Bench.ctx0) Bench.va (Bench.va + 0x1ff8)
           Bench.w_frame0); vm_compute; reflexivity.
Defined.

Lemma release_live_leaf_is_noop_witness :
  Bench.release (Some Bench.pm) (Some Bench.ctx_live) Bench.va Bench.w_live
  = Ok (tt, Bench.ctx_live,
        with_trace [EvScan 0x4000; EvScan 0x4000; EvScan 0x4000] Bench.w_live).
Proof.
  destruct (release_live_leaf_is_noop Bench.ident Bench.ident Bench.VM_MAX
              Bench.ident Bench.pm Bench.ctx_live Bench.va Bench.w_live)
    as (H & _).
  - reflexivity.
  - cbn. lia.
  - cbn. lia.
  - cbn. lia.
  - cbn. lia.
  - vm_compute. discriminate.
  - vm_compute. discriminate.
  - exact H.
Defined.

Lemma release_empty_leaf_witness :
  Bench.release (Some Bench.pm) (Some (Bench.ctx_of Bench.held)) Bench.va
    (Bench.world_of Bench.held) = Fault.
Proof.
  destruct (release_empty_leaf Bench.ident Bench.ident Bench.pm
              (Bench.ctx_of Bench.held) Bench.va (Bench.world_of Bench.held)
              Bench.ident)
    as (_ & H).
  - reflexivity.
  - cbn. lia.
  - vm_compute. discriminate.
  - vm_compute. discriminate.
  - vm_compute. discriminate.
  - vm_compute. discriminate.
  - intros Hl. apply Hl. vm_compute. reflexivity.
  - reflexivity.
  - exact H.
Defined.

Lemma release_without_references_witness :
  Bench.release (Some Bench.pm) (Some Bench.ctx0) Bench.va Bench.w0 = Fault.
Proof.
  exact (release_without_references Bench.ident Bench.ident Bench.pm Bench.ctx0
           Bench.va Bench.w0 eq_refl
           ltac:(cbn; lia) eq_refl eq_refl eq_refl).
Defined.

Lemma release_frees_leaf_only_witness :
  pdpt (Bench.ctx_of Bench.leaf_self) = pdpt Bench.ctx_self /\
  pdt (Bench.ctx_of Bench.leaf_self) = pdt Bench.ctx_self.
Proof.
  destruct (release_frees_leaf_only Bench.ident Bench.ident Bench.pm
              Bench.ctx_self Bench.va_self Bench.w_self
              (Bench.ctx_of Bench.leaf_self) (Bench.world_of Bench.leaf_self))
    as (H3 & H2 & _).
  - reflexivity.
  - cbn. lia.
  - intros _. cbn. lia.
  - vm_compute. reflexivity.
  - split; [exact H3 | exact H2].
Defined.

Lemma bad_arguments_panic_witness :
  Bench.hold None (Some Bench.ctx0) Bench.va Bench.w0 = Panic.
Proof.
  destruct (bad_arguments_panic Bench.ident Bench.ident Bench.VM_MAX Bench.ident
              None (Some Bench.ctx0) Bench.va Bench.w0) as (H & _).
  apply H. left. reflexivity.
Defined.
